(** * Crossref deposit generator: a shallow embedding of [xml_generator.py]

    The development follows the layout of the Python class [XMLGenerator]:
    - [PyStr]: the [str] primitives the code calls ([strip], [replace],
      slicing, [startswith], [endswith], [split], [join]);
    - [Re]: the fragment of [re] the three patterns of the code need,
      decided with Brzozowski derivatives;
    - the field normalizers [_safe], [_fmt_issn], [_ymd], [_url_or_empty];
    - the builders [create_journal_xml], [create_article_xml], [combine_xml];
    - the driver [generate_xml] over an explicit world: what the program
      is answered (directory listings, spreadsheets, the clock, the calls
      the operating system refuses) and the documents it writes.

    Python strings are modelled as [string] whose characters are the code
    points below 256.  On that range [\d] is exactly [0-9] and the characters
    [str.strip] removes are 9-13, 28-32, 133 and 160.  The records handed
    to the logger are left out: they change neither control flow nor the
    document.  Setting the logger up can fail and is part of [__init__]. *)

From Stdlib Require Import String Ascii ZArith List Bool Lia DecimalString DecimalNat.
From stdpp Require Import gmap strings.
Import ListNotations.

(** Appending to a literal is computed by [cbn] and [simpl]. *)
Arguments String.append !s1 s2 : simpl nomatch.

(** ** Python [str] primitives *)
Module PyStr.

Definition code (c : ascii) : nat := nat_of_ascii c.

(** [str.isspace] restricted to one character. *)
Definition isspace (c : ascii) : bool :=
  let n := code c in
  ((9 <=? n) && (n <=? 13)) || ((28 <=? n) && (n <=? 32))
  || (n =? 133) || (n =? 160).

(** [c.isdecimal()], which is what [\d] tests. *)
Definition isdigit (c : ascii) : bool :=
  let n := code c in (48 <=? n) && (n <=? 57).

(** Truthiness of a [str]: [if s:] holds for the non-empty strings. *)
Definition truthy (s : string) : bool :=
  match s with "" => false | String _ _ => true end.

(** [a or b] on strings. *)
Definition or_else (a b : string) : string := if truthy a then a else b.

Fixpoint lstrip (s : string) : string :=
  match s with
  | "" => ""
  | String c s' => if isspace c then lstrip s' else s
  end.

Fixpoint rstrip (s : string) : string :=
  match s with
  | "" => ""
  | String c s' =>
      match rstrip s' with
      | "" => if isspace c then "" else String c ""
      | r => String c r
      end
  end.

(** [s.strip()] *)
Definition strip (s : string) : string := rstrip (lstrip s).

(** [s.replace(old, new)] for a one-character [old]. *)
Fixpoint replace (old : ascii) (new : string) (s : string) : string :=
  match s with
  | "" => ""
  | String c s' =>
      if Ascii.eqb c old then new +:+ replace old new s'
      else String c (replace old new s')
  end.

(** [s[:n]] and [s[n:]] for [n >= 0]; both clamp at the end of [s]. *)
Fixpoint slice_to (n : nat) (s : string) : string :=
  match n, s with
  | S n', String c s' => String c (slice_to n' s')
  | _, _ => ""
  end.

Fixpoint slice_from (n : nat) (s : string) : string :=
  match n, s with
  | S n', String _ s' => slice_from n' s'
  | _, _ => s
  end.

(** [s.startswith(p)] *)
Fixpoint startswith (p s : string) : bool :=
  match p, s with
  | "", _ => true
  | String a p', String b s' => Ascii.eqb a b && startswith p' s'
  | String _ _, "" => false
  end.

(** [s.endswith(suf)] *)
Fixpoint endswith (suf s : string) : bool :=
  String.eqb s suf ||
  match s with
  | "" => false
  | String _ s' => endswith suf s'
  end.

Fixpoint contains (c : ascii) (s : string) : bool :=
  match s with
  | "" => false
  | String d s' => Ascii.eqb d c || contains c s'
  end.

(** [s.split(sep)[0]] for a one-character [sep]: the text before the
    first [sep], or all of [s] when there is none. *)
Fixpoint split_head (sep : ascii) (s : string) : string :=
  match s with
  | "" => ""
  | String c s' => if Ascii.eqb c sep then "" else String c (split_head sep s')
  end.

(** [sep.join(parts)] *)
Fixpoint join (sep : string) (parts : list string) : string :=
  match parts with
  | [] => ""
  | [p] => p
  | p :: ps => p +:+ sep +:+ join sep ps
  end.

(** [s.zfill(w)] on a string without sign. *)
Definition zfill (w : nat) (s : string) : string :=
  String.concat "" (repeat "0" (w - String.length s)) +:+ s.

(** [str(n)] for a natural number. *)
Definition of_nat (n : nat) : string := NilEmpty.string_of_uint (Nat.to_uint n).

(** [str(z)] for an integer. *)
Definition of_Z (z : Z) : string := NilEmpty.string_of_int (Z.to_int z).

Fixpoint all (p : ascii -> bool) (s : string) : bool :=
  match s with
  | "" => true
  | String c s' => p c && all p s'
  end.

Definition char_at (n : nat) (s : string) : option ascii := String.get n s.

End PyStr.

(** ** The [re] fragment used by the patterns of the code *)
Module Re.

Inductive regex : Type :=
| Fail
| Eps
| Class (p : ascii -> bool)
| Cat (r1 r2 : regex)
| Alt (r1 r2 : regex).

Definition Chr (c : ascii) : regex := Class (Ascii.eqb c).
Definition Opt (r : regex) : regex := Alt r Eps.

(** [r{n}] *)
Fixpoint Rep (n : nat) (r : regex) : regex :=
  match n with
  | O => Eps
  | S n' => Cat r (Rep n' r)
  end.

(** A literal run of characters. *)
Fixpoint Lit (s : string) : regex :=
  match s with
  | "" => Eps
  | String c s' => Cat (Chr c) (Lit s')
  end.

Fixpoint nullable (r : regex) : bool :=
  match r with
  | Fail => false
  | Eps => true
  | Class _ => false
  | Cat r1 r2 => nullable r1 && nullable r2
  | Alt r1 r2 => nullable r1 || nullable r2
  end.

Fixpoint deriv (c : ascii) (r : regex) : regex :=
  match r with
  | Fail | Eps => Fail
  | Class p => if p c then Eps else Fail
  | Cat r1 r2 =>
      if nullable r1 then Alt (Cat (deriv c r1) r2) (deriv c r2)
      else Cat (deriv c r1) r2
  | Alt r1 r2 => Alt (deriv c r1) (deriv c r2)
  end.

(** [re.fullmatch(r, s) is not None]: all of [s] is in the language. *)
Fixpoint fullmatch (r : regex) (s : string) : bool :=
  match s with
  | "" => nullable r
  | String c s' => fullmatch (deriv c r) s'
  end.

(** [re.match(r, s) is not None]: some prefix of [s] is in the language.
    A leading [^] adds nothing, [re.match] being anchored at index 0. *)
Fixpoint match_ (r : regex) (s : string) : bool :=
  nullable r ||
  match s with
  | "" => false
  | String c s' => match_ (deriv c r) s'
  end.

(** No string can be matched any more. *)
Fixpoint dead (r : regex) : bool :=
  match r with
  | Fail => true
  | Eps | Class _ => false
  | Cat r1 _ => dead r1
  | Alt r1 r2 => dead r1 && dead r2
  end.

End Re.

Import PyStr Re.

(** ** Cells of a spreadsheet *)

(** What [pandas] hands over for one cell.  [NA] stands for every value
    [pd.isna] accepts ([NaN], [None], [NaT]), and also for [None] returned
    by [Series.get] on a missing column. *)
Inductive cell : Type :=
| NA
| Text (s : string)
| Int (z : Z).

Definition isna (v : cell) : bool :=
  match v with NA => true | _ => false end.

Definition py_str (v : cell) : string :=
  match v with
  | NA => "nan"
  | Text s => s
  | Int z => PyStr.of_Z z
  end.

(** ** Helpers of [XMLGenerator] *)

Definition _safe (v : cell) : string :=
  if isna v then "" else strip (py_str v).

(** [r'\d{8}'] *)
Definition re_issn8 : regex := Rep 8 (Class isdigit).

(** [r'\d{4}-\d{3}[\dX]'] *)
Definition re_issn_hyph : regex :=
  Cat (Rep 4 (Class isdigit))
      (Cat (Chr "-")
           (Cat (Rep 3 (Class isdigit))
                (Class (fun c => isdigit c || Ascii.eqb c "X")))).

Definition _fmt_issn (value : cell) : string :=
  let s := replace "-" "" (_safe value) in
  if fullmatch re_issn8 s then slice_to 4 s +:+ "-" +:+ slice_from 4 s
  else if fullmatch re_issn_hyph (_safe value) then _safe value
  else "".

(** [r'^(https?|ftp)://'] *)
Definition re_url : regex :=
  Cat (Alt (Cat (Lit "http") (Opt (Chr "s"))) (Lit "ftp")) (Lit "://").

Definition _url_or_empty (v : cell) : string :=
  let v := _safe v in
  if truthy v && match_ re_url v then v else "".

(** ** Rows, data frames, exceptions *)

(** A row is a [pandas.Series] indexed by column name. *)
Abbreviation row := (gmap string cell).

(** [series.get(key)]: the cell, or [None] (read as [NA]) without it. *)
Definition get (r : row) (key : string) : cell :=
  match r !! key with
  | Some v => v
  | None => NA
  end.

(** The rows of a sheet, in sheet order. *)
Abbreviation DataFrame := (list row).

(** The exceptions that reach the caller.  The classes of [OSError] are
    those the operating system can answer with when a folder is listed, a
    directory made or a file opened. *)
Inductive exn : Type :=
| FileNotFoundError (msg : string)
| NotADirectoryError (msg : string)
| PermissionError (msg : string)
| FileExistsError (msg : string)
| OSError (msg : string)
| ValueError (msg : string)
| IndexError
| AttributeError
| NotImplementedError.

Inductive result (A : Type) : Type :=
| Ok (a : A)
| Raise (e : exn).
Arguments Ok {A} a.
Arguments Raise {A} e.

Definition bind {A B : Type} (m : result A) (k : A -> result B) : result B :=
  match m with
  | Ok a => k a
  | Raise e => Raise e
  end.

Notation "'let*' x ':=' m 'in' k" := (bind m (fun x => k))
  (at level 10, x name, m at level 100, k at level 200).

Definition is_ok {A : Type} (m : result A) : bool :=
  match m with Ok _ => true | Raise _ => false end.

(** ** Dates *)

(** The calendar fields of a [pandas.Timestamp] that the code reads.  A
    [Timestamp] is not bound to the years of [datetime]: pandas also
    resolves years before 1 and after 9999. *)
Record timestamp : Type := { ts_year : Z; ts_month : nat; ts_day : nat }.

(** [datetime.MINYEAR <= dt.year <= datetime.MAXYEAR] *)
Definition datetime_years (dt : timestamp) : bool :=
  (1 <=? ts_year dt)%Z && (ts_year dt <=? 9999)%Z.

(** [dt.strftime('%Y')], [dt.strftime('%m')], [dt.strftime('%d')].
    [Timestamp.strftime] first builds a [datetime] from the fields; outside
    the years of [datetime] that fails and [strftime] raises
    [NotImplementedError].  Inside them the C library prints [%Y] as the
    year in decimal, without padding, and [%m] and [%d] on two digits. *)
Definition strftime_Y (dt : timestamp) : result string :=
  if datetime_years dt then Ok (PyStr.of_nat (Z.to_nat (ts_year dt)))
  else Raise NotImplementedError.

Definition strftime_m (dt : timestamp) : result string :=
  if datetime_years dt then Ok (zfill 2 (PyStr.of_nat (ts_month dt)))
  else Raise NotImplementedError.

Definition strftime_d (dt : timestamp) : result string :=
  if datetime_years dt then Ok (zfill 2 (PyStr.of_nat (ts_day dt)))
  else Raise NotImplementedError.

(** A date parser for the examples: it accepts the text [YYYY-MM-DD] and
    nothing else.  The development itself is parametric in the parser. *)
Fixpoint digits_value (acc : nat) (s : string) : nat :=
  match s with
  | "" => acc
  | String c s' => digits_value (10 * acc + (code c - 48)) s'
  end.

Definition re_iso_date : regex :=
  Cat (Rep 4 (Class isdigit))
      (Cat (Chr "-") (Cat (Rep 2 (Class isdigit))
                          (Cat (Chr "-") (Rep 2 (Class isdigit))))).

Definition iso_to_datetime (v : cell) : option timestamp :=
  match v with
  | Text s =>
      let s := strip s in
      let m := digits_value 0 (slice_to 2 (slice_from 5 s)) in
      let d := digits_value 0 (slice_from 8 s) in
      if fullmatch re_iso_date s && (1 <=? m) && (m <=? 12) && (1 <=? d) && (d <=? 31)
      then Some {| ts_year := Z.of_nat (digits_value 0 (slice_to 4 s));
                   ts_month := m; ts_day := d |}
      else None
  | _ => None
  end.

(** [df.iloc[0]] *)
Definition iloc0 (df : DataFrame) : result row :=
  match df with
  | r :: _ => Ok r
  | [] => Raise IndexError
  end.

(** ** Statements on the list [parts]

    The builders mutate one list, [parts], statement by statement.  A
    statement is read as the function from the list before it to the
    list after it. *)
Definition stmt : Type := list string -> list string.

(** [parts.append(x)] *)
Definition append (x : string) : stmt := fun parts => parts ++ [x].

(** [if c: body] *)
Definition when (c : bool) (body : stmt) : stmt :=
  fun parts => if c then body parts else parts.

(** Statements one after the other. *)
Definition block (body : list stmt) : stmt :=
  fun parts => fold_left (fun acc s => s acc) body parts.

(** A statement that only appends: what it does to a list is what it
    does to the empty list, put after the list. *)
Definition additive (s : stmt) : Prop := forall parts, s parts = parts ++ s [].

(** ** [os.path] (POSIX) *)

(** [os.path.join(a, b)] *)
Definition os_path_join (a b : string) : string :=
  if startswith "/" b then b
  else if negb (truthy a) || endswith "/" a then a +:+ b
  else a +:+ "/" +:+ b.

(** [os.path.basename(p)]: what follows the last [/]. *)
Fixpoint os_path_basename (p : string) : string :=
  match p with
  | "" => ""
  | String c p' =>
      if contains "/" p' then os_path_basename p'
      else if Ascii.eqb c "/" then p' else p
  end.

(** [os.path.dirname(p)]: [p] up to its last [/], without the slashes
    that end it unless it is made of slashes only. *)
Fixpoint head_of_path (p : string) : string :=
  match p with
  | "" => ""
  | String c p' =>
      if contains "/" p' || Ascii.eqb c "/" then String c (head_of_path p') else ""
  end.

Fixpoint rstrip_slashes (s : string) : string :=
  match s with
  | "" => ""
  | String c s' =>
      match rstrip_slashes s' with
      | "" => if Ascii.eqb c "/" then "" else String c ""
      | r => String c r
      end
  end.

Definition os_path_dirname (p : string) : string :=
  let head := head_of_path p in
  if truthy head && negb (all (fun c => Ascii.eqb c "/") head)
  then rstrip_slashes head else head.

(** ** The object and its world *)

Record XMLGenerator : Type := {
  folder_path : string;
  journal_file : string;
  article_file : string;
  journal_data : option DataFrame;
  article_data : option DataFrame;
  journal_xml : string;
  article_xml : string;
  base_filename : string
}.

(** What the operating system answers when it refuses a call: the error
    of [os.listdir] on a path that cannot be listed, of
    [utils.setup_logging] when the log directory or the log file cannot be
    made, of [os.makedirs] and of [open(path, 'w')], and the error of
    [file.write] together with the text that had reached the file. *)
Record verdicts : Type := {
  listdir_error : string -> exn;
  setup_logging_error : string -> option exn;
  makedirs_error : string -> option exn;
  open_error : string -> option exn;
  write_error : string -> string -> option (exn * string)
}.

(** What the program is answered and what it leaves behind.  Answers: the
    listing [os.listdir] returns for a folder, in its order; the
    spreadsheet [pd.read_excel] returns for a path that exists; the clock,
    already rendered by [strftime('%Y%m%d%H%M%S')]; the verdicts of the
    operating system.  Left behind: [files], the text that has reached
    each path through [write_to_xml_file].  The records handed to the
    logger are not part of it. *)
Record world : Type := {
  dirs : gmap string (list string);
  sheets : gmap string DataFrame;
  now : string;
  files : gmap string string;
  os : verdicts
}.

Definition set_journal_file (self : XMLGenerator) (v : string) : XMLGenerator :=
  {| folder_path := folder_path self; journal_file := v;
     article_file := article_file self; journal_data := journal_data self;
     article_data := article_data self; journal_xml := journal_xml self;
     article_xml := article_xml self; base_filename := base_filename self |}.

Definition set_article_file (self : XMLGenerator) (v : string) : XMLGenerator :=
  {| folder_path := folder_path self; journal_file := journal_file self;
     article_file := v; journal_data := journal_data self;
     article_data := article_data self; journal_xml := journal_xml self;
     article_xml := article_xml self; base_filename := base_filename self |}.

Definition set_journal_data (self : XMLGenerator) (v : option DataFrame) : XMLGenerator :=
  {| folder_path := folder_path self; journal_file := journal_file self;
     article_file := article_file self; journal_data := v;
     article_data := article_data self; journal_xml := journal_xml self;
     article_xml := article_xml self; base_filename := base_filename self |}.

Definition set_article_data (self : XMLGenerator) (v : option DataFrame) : XMLGenerator :=
  {| folder_path := folder_path self; journal_file := journal_file self;
     article_file := article_file self; journal_data := journal_data self;
     article_data := v; journal_xml := journal_xml self;
     article_xml := article_xml self; base_filename := base_filename self |}.

Definition set_journal_xml (self : XMLGenerator) (v : string) : XMLGenerator :=
  {| folder_path := folder_path self; journal_file := journal_file self;
     article_file := article_file self; journal_data := journal_data self;
     article_data := article_data self; journal_xml := v;
     article_xml := article_xml self; base_filename := base_filename self |}.

Definition set_article_xml (self : XMLGenerator) (v : string) : XMLGenerator :=
  {| folder_path := folder_path self; journal_file := journal_file self;
     article_file := article_file self; journal_data := journal_data self;
     article_data := article_data self; journal_xml := journal_xml self;
     article_xml := v; base_filename := base_filename self |}.

Definition set_base_filename (self : XMLGenerator) (v : string) : XMLGenerator :=
  {| folder_path := folder_path self; journal_file := journal_file self;
     article_file := article_file self; journal_data := journal_data self;
     article_data := article_data self; journal_xml := journal_xml self;
     article_xml := article_xml self; base_filename := v |}.

Definition set_files (w : world) (v : gmap string string) : world :=
  {| dirs := dirs w; sheets := sheets w; now := now w; files := v; os := os w |}.

(** ** File discovery *)

(** The [for] loop of [find_journal_file] over one listing. *)
Fixpoint find_journal_in (folder : string) (listing : list string) : result string :=
  match listing with
  | [] => Raise (FileNotFoundError "No journal file found in the specified folder.")
  | filename :: rest =>
      if endswith "_journal.xlsx" filename then Ok (os_path_join folder filename)
      else find_journal_in folder rest
  end.

Definition find_journal_file (self : XMLGenerator) (w : world) : result string :=
  match dirs w !! folder_path self with
  | None => Raise (listdir_error (os w) (folder_path self))
  | Some listing => find_journal_in (folder_path self) listing
  end.

Definition extract_base_filename (self : XMLGenerator) : string :=
  let base_name := os_path_basename (journal_file self) in
  split_head "_" base_name.

Definition initialize_article_file (self : XMLGenerator) : XMLGenerator :=
  set_article_file self
    (os_path_join (folder_path self) (base_filename self +:+ "_articles.xlsx")).

(** [utils.setup_logging(base_filename)]: the logger, unless the log
    directory or the log file cannot be made. *)
Definition setup_logging (base_filename : string) (w : world) : result unit :=
  match setup_logging_error (os w) base_filename with
  | Some e => Raise e
  | None => Ok tt
  end.

(** [XMLGenerator(folder_path)]; the handler of its [try] logs and raises
    the error again. *)
Definition __init__ (folder : string) (w : world) : result XMLGenerator :=
  let self := {| folder_path := folder; journal_file := ""; article_file := "";
                 journal_data := None; article_data := None;
                 journal_xml := ""; article_xml := ""; base_filename := "" |} in
  let* jf := find_journal_file self w in
  let self := set_journal_file self jf in
  let self := set_base_filename self (extract_base_filename self) in
  let* logger := setup_logging (base_filename self) w in
  Ok (initialize_article_file self).

(** [read_excel_data]: [os.path.exists] then [pd.read_excel], both read
    off [sheets]. *)
Definition read_excel_data (self : XMLGenerator) (w : world) : result XMLGenerator :=
  match sheets w !! journal_file self with
  | None => Raise (FileNotFoundError (journal_file self +:+ " not found."))
  | Some jd =>
      let self := set_journal_data self (Some jd) in
      let self := initialize_article_file self in
      match sheets w !! article_file self with
      | None => Raise (FileNotFoundError (article_file self +:+ " not found."))
      | Some ad => Ok (set_article_data self (Some ad))
      end
  end.

(** ** XML builders *)

(** The line feed of ["\n".join(parts)] and the double quote of the
    attribute values. *)
Definition nl : string := String (ascii_of_nat 10) "".
Definition dq : string := String (ascii_of_nat 34) "".

(** [pd.to_datetime(value, errors='coerce')]: the parsed timestamp, or
    [None] for [NaT].  The parser belongs to pandas and is left open. *)
Class Pandas : Type := to_datetime : cell -> option timestamp.

Section Generator.

Context {pd : Pandas}.

Definition _ymd (value : cell) : result (string * string * string) :=
  match to_datetime value with
  | None => Ok ("", "", "")
  | Some dt =>
      let* y := strftime_Y dt in
      let* m := strftime_m dt in
      let* d := strftime_d dt in
      Ok (y, m, d)
  end.

(** The list [parts] that [create_journal_xml] builds from the first row,
    once the two calls of [_ymd] have returned [print] and [online]. *)
Definition journal_parts (journal : row) (print online : string * string * string)
  : list string :=
  let '(y_p, m_p, d_p) := print in
  let '(y_o, m_o, d_o) := online in
  let p_issn := _fmt_issn (get journal "Print_ISSN") in
  let e_issn := _fmt_issn (get journal "Electronic_ISSN") in
  let jtitle := _safe (get journal "Journal Title") in
  let jabbrev := _safe (get journal "Abbrev") in
  let jdoi := _safe (get journal "Journal_DOI") in
  let jurl := _url_or_empty (get journal "Journal_URL") in
  let volume := _safe (get journal "Volume") in
  let issue := _safe (get journal "Issue") in
  let issue_doi := _safe (get journal "Issue_DOI") in
  let issue_url := _url_or_empty (get journal "Issue_URL") in
  block
    [ append "<journal_metadata>";
      append ("    <full_title>" +:+ jtitle +:+ "</full_title>");
      when (truthy jabbrev)
        (append ("    <abbrev_title>" +:+ jabbrev +:+ "</abbrev_title>"));
      when (truthy p_issn)
        (append ("    <issn media_type='print'>" +:+ p_issn +:+ "</issn>"));
      when (truthy e_issn)
        (append ("    <issn media_type='electronic'>" +:+ e_issn +:+ "</issn>"));
      when (truthy jdoi || truthy jurl)
        (block
           [ append "    <doi_data>";
             when (truthy jdoi) (append ("        <doi>" +:+ jdoi +:+ "</doi>"));
             when (truthy jurl)
               (append ("        <resource>" +:+ jurl +:+ "</resource>"));
             append "    </doi_data>" ]);
      append "</journal_metadata>";
      append "<journal_issue>";
      when (truthy y_p && truthy m_p && truthy d_p)
        (block
           [ append "    <publication_date media_type='print'>";
             append ("        <month>" +:+ m_p +:+ "</month>");
             append ("        <day>" +:+ d_p +:+ "</day>");
             append ("        <year>" +:+ y_p +:+ "</year>");
             append "    </publication_date>" ]);
      when (truthy y_o && truthy m_o && truthy d_o)
        (block
           [ append "    <publication_date media_type='online'>";
             append ("        <month>" +:+ m_o +:+ "</month>");
             append ("        <day>" +:+ d_o +:+ "</day>");
             append ("        <year>" +:+ y_o +:+ "</year>");
             append "    </publication_date>" ]);
      when (truthy volume)
        (block
           [ append "    <journal_volume>";
             append ("        <volume>" +:+ volume +:+ "</volume>");
             append "    </journal_volume>" ]);
      when (truthy issue) (append ("    <issue>" +:+ issue +:+ "</issue>"));
      when (truthy issue_doi || truthy issue_url)
        (block
           [ append "    <doi_data>";
             when (truthy issue_doi)
               (append ("        <doi>" +:+ issue_doi +:+ "</doi>"));
             when (truthy issue_url)
               (append ("        <resource>" +:+ issue_url +:+ "</resource>"));
             append "    </doi_data>" ]);
      append "</journal_issue>" ]
    [].

(** The body of [create_journal_xml] on the first row: the two calls of
    [_ymd], either of which can raise, then the list [parts]. *)
Definition journal_fragment (journal : row) : result (list string) :=
  let* print := _ymd (get journal "Pub_Date_Print") in
  let* online := _ymd (get journal "Pub_Date_Online") in
  Ok (journal_parts journal print online).

Definition create_journal_xml (self : XMLGenerator) : result XMLGenerator :=
  match journal_data self with
  | None => Raise AttributeError
  | Some df =>
      let* journal := iloc0 df in
      let* parts := journal_fragment journal in
      Ok (set_journal_xml self (join nl parts))
  end.

(** One turn of [for i in range(1, 6)], on the pair ([parts],
    [first_written]). *)
Definition author_iteration (article : row) (st : list string * bool) (i : nat)
  : list string * bool :=
  let '(parts, first_written) := st in
  let fname := _safe (get article ("author" +:+ PyStr.of_nat i +:+ "_fname")) in
  let mname := _safe (get article ("author" +:+ PyStr.of_nat i +:+ "_mname")) in
  let lname := _safe (get article ("author" +:+ PyStr.of_nat i +:+ "_lname")) in
  let inst := _safe (get article ("author" +:+ PyStr.of_nat i +:+ "_inst")) in
  if truthy fname then
    let sequence := if negb first_written then "first" else "additional" in
    let first_written := true in
    let given := strip (join " " (List.filter truthy [fname; mname])) in
    let parts :=
      block
        [ append ("            <person_name contributor_role='author' sequence='"
                  +:+ sequence +:+ "'>");
          append ("                <given_name>" +:+ given +:+ "</given_name>");
          when (truthy lname)
            (append ("                <surname>" +:+ lname +:+ "</surname>"));
          when (truthy inst)
            (append ("                <affiliation>" +:+ inst +:+ "</affiliation>"));
          append "            </person_name>" ]
        parts in
    (parts, first_written)
  else (parts, first_written).

(** The whole [for i in range(1, 6)] loop, [first_written] starting
    [False]. *)
Definition author_loop (article : row) : stmt :=
  fun parts => fst (fold_left (author_iteration article) (seq 1 5) (parts, false)).

(** The list [parts] of one article whose resource has been accepted,
    once [_ymd] has returned [date]. *)
Definition article_parts (article : row) (title doi resource : string)
    (date : string * string * string) : list string :=
  let '(y, m, d) := date in
  block
    [ append ("    <journal_article publication_type=" +:+ dq +:+ "full_text"
              +:+ dq +:+ ">");
      append "        <titles>";
      append ("            <title>" +:+ title +:+ "</title>");
      append "        </titles>";
      append "        <contributors>";
      author_loop article;
      append "        </contributors>";
      when (truthy y && truthy m && truthy d)
        (block
           [ append "        <publication_date media_type='online'>";
             append ("            <month>" +:+ m +:+ "</month>");
             append ("            <day>" +:+ d +:+ "</day>");
             append ("            <year>" +:+ y +:+ "</year>");
             append "        </publication_date>" ]);
      append "        <doi_data>";
      when (truthy doi) (append ("            <doi>" +:+ doi +:+ "</doi>"));
      append ("            <resource>" +:+ resource +:+ "</resource>");
      append "        </doi_data>";
      append "    </journal_article>" ]
    [].

(** One turn of [for _, article in self.article_data.iterrows()]: the
    block appended to [article_xml_list], or the [ValueError]. *)
Definition article_iteration (article : row) : result string :=
  let title := _safe (get article "title") in
  let doi := _safe (get article "doi") in
  let resource := _url_or_empty (get article "fulltext_url") in
  if negb (truthy resource) then
    Raise (ValueError ("Missing resource URL for article: "
                       +:+ or_else title "(untitled)"))
  else
    let* date := _ymd (get article "publication_date") in
    Ok (join nl (article_parts article title doi resource date)).

Fixpoint article_loop (rows : DataFrame) (article_xml_list : list string)
  : result (list string) :=
  match rows with
  | [] => Ok article_xml_list
  | article :: rest =>
      let* block := article_iteration article in
      article_loop rest (article_xml_list ++ [block])
  end.

Definition create_article_xml (self : XMLGenerator) : result XMLGenerator :=
  match article_data self with
  | None => Raise AttributeError
  | Some df =>
      let* article_xml_list := article_loop df [] in
      Ok (set_article_xml self (join nl article_xml_list))
  end.

(** The local [batch_id] of [combine_xml]. *)
Definition batch_id_of (self : XMLGenerator) (journal : row) : string :=
  or_else (_safe (get journal "Journal_DOI")) (base_filename self).

Definition combine_xml (self : XMLGenerator) (w : world) : result string :=
  match journal_data self with
  | None => Raise AttributeError
  | Some df =>
      let* journal := iloc0 df in
      let batch_id := batch_id_of self journal in
      let timestamp := now w in
      Ok (join nl
        [ "<?xml version=" +:+ dq +:+ "1.0" +:+ dq +:+ " encoding=" +:+ dq +:+ "UTF-8"
            +:+ dq +:+ "?>";
          "<doi_batch xmlns=" +:+ dq +:+ "http://www.crossref.org/schema/4.4.2" +:+ dq;
          "           version=" +:+ dq +:+ "4.4.2" +:+ dq;
          "           xmlns:xsi=" +:+ dq +:+ "http://www.w3.org/2001/XMLSchema-instance"
            +:+ dq;
          "           xsi:schemaLocation=" +:+ dq
            +:+ "http://www.crossref.org/schema/4.4.2 http://www.crossref.org/schemas/crossref4.4.2.xsd"
            +:+ dq +:+ ">";
          "    <head>";
          "        <doi_batch_id>" +:+ batch_id +:+ "</doi_batch_id>";
          "        <timestamp>" +:+ timestamp +:+ "</timestamp>";
          "        <depositor>";
          "            <depositor_name>MSSL</depositor_name>";
          "            <email_address>memanuel@olemiss.edu</email_address>";
          "        </depositor>";
          "        <registrant>University of Mississippi</registrant>";
          "    </head>";
          "    <body>";
          "        <journal>";
          journal_xml self;
          article_xml self;
          "        </journal>";
          "    </body>";
          "</doi_batch>";
          "" ])
  end.

(** [os.makedirs(os.path.dirname(filename), exist_ok=True)], then
    [open(filename, 'w')] and [file.write(xml_string)].  Each of the
    three can be refused; a refused [write] leaves in the file what had
    reached it. *)
Definition write_to_xml_file (self : XMLGenerator) (xml_string filename : string)
    (w : world) : result unit * world :=
  match makedirs_error (os w) (os_path_dirname filename) with
  | Some e => (Raise e, w)
  | None =>
      match open_error (os w) filename with
      | Some e => (Raise e, w)
      | None =>
          match write_error (os w) filename xml_string with
          | Some (e, written) =>
              (Raise e, set_files w (<[filename := written]> (files w)))
          | None => (Ok tt, set_files w (<[filename := xml_string]> (files w)))
          end
      end
  end.

(** The document assembled in memory by the first four calls of
    [generate_xml]. *)
Definition assemble (self : XMLGenerator) (w : world) : result (XMLGenerator * string) :=
  let* self := read_excel_data self w in
  let* self := create_journal_xml self in
  let* self := create_article_xml self in
  let* combined_xml := combine_xml self w in
  Ok (self, combined_xml).

Definition generate_xml (self : XMLGenerator) (w : world) : result unit * world :=
  match assemble self w with
  | Raise e => (Raise e, w)
  | Ok (self, combined_xml) =>
      let output_file := "../output/" +:+ base_filename self +:+ ".xml" in
      write_to_xml_file self combined_xml output_file w
  end.

End Generator.

(** The example parser as an interpretation of [to_datetime]. *)
Definition iso_pandas : Pandas := iso_to_datetime.

(** ** The specification's reading of the normalizers

    These definitions follow the words of the specification; the theorems
    below compare them with the code above. *)

Definition is_8_digits (s : string) : bool :=
  (String.length s =? 8) && all isdigit s.

(** Four digits, a hyphen, three digits, then a digit or [X]. *)
Definition is_hyphenated_issn (s : string) : bool :=
  (String.length s =? 9)
  && all isdigit (slice_to 4 s)
  && String.eqb (slice_to 1 (slice_from 4 s)) "-"
  && all isdigit (slice_to 3 (slice_from 5 s))
  && all (fun c => isdigit c || Ascii.eqb c "X") (slice_from 8 s).

Definition normalizeISSN (v : cell) : string :=
  let trimmed := _safe v in
  let stripped := replace "-" "" trimmed in
  if is_8_digits stripped then slice_to 4 stripped +:+ "-" +:+ slice_from 4 stripped
  else if is_hyphenated_issn trimmed then trimmed
  else "".

Definition has_url_scheme (t : string) : bool :=
  startswith "http://" t || startswith "https://" t || startswith "ftp://" t.

Definition normalizeURL (v : cell) : string :=
  let trimmed := _safe v in
  if has_url_scheme trimmed then trimmed else "".

(** ** Reading a list of parts *)

(** Some part opens with [tag]: the element is in the fragment. *)
Definition emits (tag : string) (parts : list string) : bool :=
  existsb (startswith tag) parts.

(** The parts up to and including the first [stop], and those after it. *)
Fixpoint through (stop : string) (parts : list string) : list string :=
  match parts with
  | [] => []
  | x :: rest => if String.eqb x stop then [x] else x :: through stop rest
  end.

Fixpoint beyond (stop : string) (parts : list string) : list string :=
  match parts with
  | [] => []
  | x :: rest => if String.eqb x stop then rest else beyond stop rest
  end.

Definition metadata_section (parts : list string) : list string :=
  through "</journal_metadata>" parts.

Definition issue_section (parts : list string) : list string :=
  beyond "</journal_metadata>" parts.

(** [[x]] when [b] holds, nothing otherwise. *)
Definition opt (b : bool) (xs : list string) : list string :=
  if b then xs else [].

(** ** The specification's reading of the fragments *)

Section Elements.

Context {pd : Pandas}.

(** Year, month and day are there, all three. *)
Definition whole (date : string * string * string) : bool :=
  let '(y, m, d) := date in truthy y && truthy m && truthy d.

(** A date element is whole or absent. *)
Definition date_element (indent media : string) (date : string * string * string)
  : list string :=
  let '(y, m, d) := date in
  opt (whole date)
    [ indent +:+ "<publication_date media_type='" +:+ media +:+ "'>";
      indent +:+ "    <month>" +:+ m +:+ "</month>";
      indent +:+ "    <day>" +:+ d +:+ "</day>";
      indent +:+ "    <year>" +:+ y +:+ "</year>";
      indent +:+ "</publication_date>" ].

(** A [doi_data] block of the journal fragment: present when one of
    its two values is. *)
Definition doi_data_element (doi url : string) : list string :=
  opt (truthy doi || truthy url)
    ([ "    <doi_data>" ]
     ++ opt (truthy doi) [ "        <doi>" +:+ doi +:+ "</doi>" ]
     ++ opt (truthy url) [ "        <resource>" +:+ url +:+ "</resource>" ]
     ++ [ "    </doi_data>" ]).

(** The four normalized values of author slot [i]. *)
Record author_slot : Type :=
  { fname : string; mname : string; lname : string; inst : string }.

Definition slot (article : row) (i : nat) : author_slot :=
  {| fname := _safe (get article ("author" +:+ PyStr.of_nat i +:+ "_fname"));
     mname := _safe (get article ("author" +:+ PyStr.of_nat i +:+ "_mname"));
     lname := _safe (get article ("author" +:+ PyStr.of_nat i +:+ "_lname"));
     inst := _safe (get article ("author" +:+ PyStr.of_nat i +:+ "_inst")) |}.

Definition slots (article : row) : list author_slot := map (slot article) (seq 1 5).

(** The slots that have a given name, in slot order. *)
Definition named (l : list author_slot) : list author_slot :=
  List.filter (fun a => truthy (fname a)) l.

(** First and middle name joined by one space; the first name alone
    without a middle name. *)
Definition given_name (a : author_slot) : string :=
  if truthy (mname a) then fname a +:+ " " +:+ mname a else fname a.

Definition person_name_open (sequence : string) : string :=
  "            <person_name contributor_role='author' sequence='" +:+ sequence +:+ "'>".

Definition person_name (sequence : string) (a : author_slot) : list string :=
  [ person_name_open sequence;
    "                <given_name>" +:+ given_name a +:+ "</given_name>" ]
  ++ opt (truthy (lname a)) [ "                <surname>" +:+ lname a +:+ "</surname>" ]
  ++ opt (truthy (inst a))
       [ "                <affiliation>" +:+ inst a +:+ "</affiliation>" ]
  ++ [ "            </person_name>" ].

(** The marks of [n] entries when [first_written] holds or not before
    the first of them. *)
Definition marks (first_written : bool) (n : nat) : list string :=
  match n with
  | O => []
  | S k => (if first_written then "additional" else "first") :: repeat "additional" k
  end.

Definition sequence_marks (n : nat) : list string := marks false n.

Definition entries (first_written : bool) (l : list author_slot) : list string :=
  flat_map (fun '(sequence, a) => person_name sequence a)
           (combine (marks first_written (length l)) l).

(** The [person_name] entries of an article. *)
Definition contributors (article : row) : list string :=
  entries false (named (slots article)).

Definition journal_article_open : string :=
  "    <journal_article publication_type=" +:+ dq +:+ "full_text" +:+ dq +:+ ">".

Definition article_element (article : row) (title doi resource : string)
    (date : string * string * string) : list string :=
  [ journal_article_open;
    "        <titles>";
    "            <title>" +:+ title +:+ "</title>";
    "        </titles>";
    "        <contributors>" ]
  ++ contributors article
  ++ [ "        </contributors>" ]
  ++ date_element "        " "online" date
  ++ [ "        <doi_data>" ]
  ++ opt (truthy doi) [ "            <doi>" +:+ doi +:+ "</doi>" ]
  ++ [ "            <resource>" +:+ resource +:+ "</resource>";
       "        </doi_data>";
       "    </journal_article>" ].

(** The triple that [_ymd] returns for a value, when it returns. *)
Definition ymd_of (v : cell) : string * string * string :=
  match _ymd v with
  | Ok date => date
  | Raise _ => ("", "", "")
  end.

(** The block of one article record whose date [_ymd] returns. *)
Definition article_block (article : row) : string :=
  join nl (article_element article
             (_safe (get article "title")) (_safe (get article "doi"))
             (_url_or_empty (get article "fulltext_url"))
             (ymd_of (get article "publication_date"))).

(** The record has no usable resource URL. *)
Definition lacks_resource (article : row) : bool :=
  negb (truthy (_url_or_empty (get article "fulltext_url"))).

Definition journal_metadata_element (journal : row) : list string :=
  let jabbrev := _safe (get journal "Abbrev") in
  let p_issn := _fmt_issn (get journal "Print_ISSN") in
  let e_issn := _fmt_issn (get journal "Electronic_ISSN") in
  [ "<journal_metadata>";
    "    <full_title>" +:+ _safe (get journal "Journal Title") +:+ "</full_title>" ]
  ++ opt (truthy jabbrev) [ "    <abbrev_title>" +:+ jabbrev +:+ "</abbrev_title>" ]
  ++ opt (truthy p_issn) [ "    <issn media_type='print'>" +:+ p_issn +:+ "</issn>" ]
  ++ opt (truthy e_issn) [ "    <issn media_type='electronic'>" +:+ e_issn +:+ "</issn>" ]
  ++ doi_data_element (_safe (get journal "Journal_DOI"))
                      (_url_or_empty (get journal "Journal_URL"))
  ++ [ "</journal_metadata>" ].

Definition journal_issue_element (journal : row)
    (print online : string * string * string) : list string :=
  let volume := _safe (get journal "Volume") in
  let issue := _safe (get journal "Issue") in
  [ "<journal_issue>" ]
  ++ date_element "    " "print" print
  ++ date_element "    " "online" online
  ++ opt (truthy volume)
       [ "    <journal_volume>";
         "        <volume>" +:+ volume +:+ "</volume>";
         "    </journal_volume>" ]
  ++ opt (truthy issue) [ "    <issue>" +:+ issue +:+ "</issue>" ]
  ++ doi_data_element (_safe (get journal "Issue_DOI"))
                      (_url_or_empty (get journal "Issue_URL"))
  ++ [ "</journal_issue>" ].

End Elements.

(** ** The specification's reading of the driver *)

Section Reading.

Context {pd : Pandas}.

(** Date normalization resolves year, month and day, all three. *)
Definition resolved (v : cell) : bool :=
  match _ymd v with
  | Ok date => whole date
  | Raise _ => false
  end.

(** Date normalization returns: the value is no date, or a date that
    [strftime] can print. *)
Definition formats (v : cell) : bool := is_ok (_ymd v).

Definition is_some {A : Type} (o : option A) : bool :=
  match o with Some _ => true | None => false end.

(** The message of the [ValueError] raised for a record. *)
Definition missing_resource_message (article : row) : string :=
  "Missing resource URL for article: " +:+ or_else (_safe (get article "title")) "(untitled)".

(** The publication date of a record is one [_ymd] returns on. *)
Definition dated (article : row) : bool := formats (get article "publication_date").

(** The error with which one record stops the loop, if it does: no
    usable resource, or a date that [strftime] cannot print. *)
Definition stops (article : row) : option exn :=
  if lacks_resource article then Some (ValueError (missing_resource_message article))
  else match _ymd (get article "publication_date") with
       | Raise e => Some e
       | Ok _ => None
       end.

(** The error of the first record that stops the loop. *)
Fixpoint first_stop (rows : DataFrame) : option exn :=
  match rows with
  | [] => None
  | r :: rest =>
      match stops r with
      | Some e => Some e
      | None => first_stop rest
      end
  end.

(** The records the loop has gone through when it meets the first one
    without a usable resource. *)
Fixpoint before_lacking (rows : DataFrame) : DataFrame :=
  match rows with
  | [] => []
  | r :: rest => if lacks_resource r then [] else r :: before_lacking rest
  end.

(** The text of the document up to the batch identifier. *)
Definition head_before_batch_id : string :=
  join nl
    [ "<?xml version=" +:+ dq +:+ "1.0" +:+ dq +:+ " encoding=" +:+ dq +:+ "UTF-8"
        +:+ dq +:+ "?>";
      "<doi_batch xmlns=" +:+ dq +:+ "http://www.crossref.org/schema/4.4.2" +:+ dq;
      "           version=" +:+ dq +:+ "4.4.2" +:+ dq;
      "           xmlns:xsi=" +:+ dq +:+ "http://www.w3.org/2001/XMLSchema-instance"
        +:+ dq;
      "           xsi:schemaLocation=" +:+ dq
        +:+ "http://www.crossref.org/schema/4.4.2 http://www.crossref.org/schemas/crossref4.4.2.xsd"
        +:+ dq +:+ ">";
      "    <head>";
      "        <doi_batch_id>" ].

End Reading.

(** ** Sample batches

    A batch as the specification's round-trip scenario describes it, one
    whose second article has no resource, and one whose journal file is
    named with nothing before the underscore. *)

(** An operating system that refuses nothing. *)
Definition willing : verdicts :=
  {| listdir_error := fun path => FileNotFoundError path;
     setup_logging_error := fun _ => None;
     makedirs_error := fun _ => None;
     open_error := fun _ => None;
     write_error := fun _ _ => None |}.

Definition sample_journal : row :=
  <["Journal Title" := Text "Test J"]> (<["Print_ISSN" := Text "12345678"]> ∅).

(** Author slot 1 is empty, slot 2 is filled. *)
Definition sample_article : row :=
  <["title" := Text "A1"]>
    (<["fulltext_url" := Text "https://x.org/1"]>
       (<["author2_fname" := Text "Ann"]> (<["author2_mname" := Text "B."]> ∅))).

Definition sample_article_no_url : row := <["title" := Text "A2"]> ∅.

(** A record with a usable resource and a date in the year 0. *)
Definition sample_article_year_0 : row :=
  <["title" := Text "A0"]>
    (<["fulltext_url" := Text "https://x.org/0"]>
       (<["publication_date" := Text "0000-01-01"]> ∅)).

Definition sample_world : world :=
  {| dirs := {[ "../data" := ["notes.txt"; "jx_journal.xlsx"] ]};
     sheets := <["../data/jx_journal.xlsx" := [sample_journal]]>
                 {[ "../data/jx_articles.xlsx" := [sample_article] ]};
     now := "20240101120000";
     files := ∅;
     os := willing |}.

Definition sample_world_no_url : world :=
  {| dirs := dirs sample_world;
     sheets := <["../data/jx_journal.xlsx" := [sample_journal]]>
                 {[ "../data/jx_articles.xlsx" := [sample_article; sample_article_no_url] ]};
     now := now sample_world;
     files := ∅;
     os := willing |}.

(** The object after [__init__] on the sample folder, and after
    [read_excel_data]. *)
Definition sample_self : XMLGenerator :=
  {| folder_path := "../data"; journal_file := "../data/jx_journal.xlsx";
     article_file := "../data/jx_articles.xlsx";
     journal_data := None; article_data := None;
     journal_xml := ""; article_xml := ""; base_filename := "jx" |}.

Definition sample_loaded : XMLGenerator :=
  set_article_data (set_journal_data sample_self (Some [sample_journal]))
                   (Some [sample_article]).

Definition underscore_world : world :=
  {| dirs := {[ "../data" := ["_journal.xlsx"] ]};
     sheets := <["../data/_journal.xlsx" := [sample_journal]]>
                 {[ "../data/_articles.xlsx" := [sample_article] ]};
     now := "20240101120000";
     files := ∅;
     os := willing |}.

Definition underscore_self : XMLGenerator :=
  {| folder_path := "../data"; journal_file := "../data/_journal.xlsx";
     article_file := "../data/_articles.xlsx";
     journal_data := None; article_data := None;
     journal_xml := ""; article_xml := ""; base_filename := "" |}.

Definition underscore_loaded : XMLGenerator :=
  set_article_data (set_journal_data underscore_self (Some [sample_journal]))
                   (Some [sample_article]).

(** ** The columns of the two sheets *)

(** The column names that [create_journal_xml] passes to [journal.get]. *)
Definition journal_columns : list string :=
  [ "Pub_Date_Print"; "Pub_Date_Online"; "Print_ISSN"; "Electronic_ISSN";
    "Journal Title"; "Abbrev"; "Journal_DOI"; "Journal_URL";
    "Volume"; "Issue"; "Issue_DOI"; "Issue_URL" ].

(** The four names that one turn of the author loop builds from [i]. *)
Definition author_columns (i : nat) : list string :=
  map (fun field => "author" +:+ PyStr.of_nat i +:+ field)
      [ "_fname"; "_mname"; "_lname"; "_inst" ].

(** The column names that [create_article_xml] passes to [article.get]. *)
Definition article_columns : list string :=
  [ "title"; "doi"; "fulltext_url" ] ++ flat_map author_columns (seq 1 5)
  ++ [ "publication_date" ].

(** Two rows hold the same cells in the given columns. *)
Definition agree (columns : list string) (r1 r2 : row) : Prop :=
  Forall (fun key => get r1 key = get r2 key) columns.

(** The path that [generate_xml] writes to. *)
Definition output_path (self : XMLGenerator) : string :=
  "../output/" +:+ base_filename self +:+ ".xml".

(** The path that [initialize_article_file] builds. *)
Definition article_path (self : XMLGenerator) : string :=
  os_path_join (folder_path self) (base_filename self +:+ "_articles.xlsx").

(** * Facts about the string primitives *)

Section StrFacts.

Lemma isdigit_not_space c : isdigit c = true -> isspace c = false.
Proof.
  destruct c as [[] [] [] [] [] [] [] []]; vm_compute; first [reflexivity | discriminate].
Qed.

Lemma truthy_empty s : truthy s = false <-> s = "".
Proof. destruct s; cbn; split; congruence. Qed.

Lemma truthy_app_l a b : truthy a = true -> truthy (a +:+ b) = true.
Proof. destruct a; cbn; [discriminate | reflexivity]. Qed.

Lemma truthy_app_r a b : truthy b = true -> truthy (a +:+ b) = true.
Proof. destruct a; cbn; [trivial | reflexivity]. Qed.

Lemma app_empty_r s : s +:+ "" = s.
Proof. induction s as [|c s IH]; cbn; congruence. Qed.

Lemma app_assoc_str a b c : (a +:+ b) +:+ c = a +:+ (b +:+ c).
Proof. induction a as [|x a IH]; cbn; congruence. Qed.

Lemma lstrip_length s : String.length (lstrip s) <= String.length s.
Proof.
  induction s as [|c s IH]; cbn; [lia|].
  destruct (isspace c); cbn; lia.
Qed.

(** A string [lstrip] leaves alone is empty or opens with a character
    that is not white space. *)
Lemma lstrip_fix_head c s : lstrip (String c s) = String c s -> isspace c = false.
Proof.
  cbn. destruct (isspace c); [|reflexivity].
  intros E. pose proof (lstrip_length s) as L. rewrite E in L. cbn in L. lia.
Qed.

Lemma lstrip_idem s : lstrip (lstrip s) = lstrip s.
Proof.
  induction s as [|c s IH]; cbn; [reflexivity|].
  destruct (isspace c) eqn:E; [exact IH|]. cbn. now rewrite E.
Qed.

Lemma rstrip_idem s : rstrip (rstrip s) = rstrip s.
Proof.
  induction s as [|c s IH]; cbn; [reflexivity|].
  destruct (rstrip s) as [|d r] eqn:E.
  - destruct (isspace c) eqn:Ec; cbn; [reflexivity|]. now rewrite Ec.
  - cbn [rstrip]. cbn [rstrip] in IH. rewrite IH. reflexivity.
Qed.

Lemma rstrip_head c s : isspace c = false -> exists r, rstrip (String c s) = String c r.
Proof.
  intros E. cbn. destruct (rstrip s); rewrite ?E; eauto.
Qed.

Lemma lstrip_rstrip s : lstrip s = s -> lstrip (rstrip s) = rstrip s.
Proof.
  destruct s as [|c s]; [reflexivity|].
  intros H. apply lstrip_fix_head in H.
  destruct (rstrip_head c s H) as [r ->]. cbn. now rewrite H.
Qed.

Lemma lstrip_app a b : lstrip a = a -> truthy a = true -> lstrip (a +:+ b) = a +:+ b.
Proof.
  destruct a as [|c a]; cbn [truthy]; [congruence|].
  intros H _. apply lstrip_fix_head in H. cbn. now rewrite H.
Qed.

Lemma rstrip_app a b : rstrip b = b -> truthy b = true -> rstrip (a +:+ b) = a +:+ b.
Proof.
  intros Hb Tb. induction a as [|c a IH]; cbn [String.append]; [exact Hb|].
  cbn [rstrip]. rewrite IH.
  assert (T : truthy (a +:+ b) = true) by now apply truthy_app_r.
  destruct (a +:+ b); [discriminate T | reflexivity].
Qed.

(** [strip] returns a string that both strips leave alone. *)
Lemma strip_lstrip s : lstrip (strip s) = strip s.
Proof. unfold strip. apply lstrip_rstrip, lstrip_idem. Qed.

Lemma strip_rstrip s : rstrip (strip s) = strip s.
Proof. unfold strip. apply rstrip_idem. Qed.

Lemma strip_fix s : lstrip s = s -> rstrip s = s -> strip s = s.
Proof. unfold strip. intros -> ->. reflexivity. Qed.

Lemma strip_idem s : strip (strip s) = strip s.
Proof. apply strip_fix; [apply strip_lstrip | apply strip_rstrip]. Qed.

Lemma safe_lstrip v : lstrip (_safe v) = _safe v.
Proof. unfold _safe. destruct (isna v); [reflexivity | apply strip_lstrip]. Qed.

Lemma safe_rstrip v : rstrip (_safe v) = _safe v.
Proof. unfold _safe. destruct (isna v); [reflexivity | apply strip_rstrip]. Qed.

(** [_safe] of a text that is already trimmed is that text. *)
Lemma safe_Text_fix s : lstrip s = s -> rstrip s = s -> _safe (Text s) = s.
Proof. intros H1 H2. unfold _safe. cbn. now apply strip_fix. Qed.

Lemma safe_safe v : _safe (Text (_safe v)) = _safe v.
Proof. apply safe_Text_fix; [apply safe_lstrip | apply safe_rstrip]. Qed.

Lemma startswith_app p s : startswith p (p +:+ s) = true.
Proof. induction p as [|c p IH]; cbn; [reflexivity|]. now rewrite Ascii.eqb_refl. Qed.

Lemma contains_app c a b : contains c (a +:+ b) = contains c a || contains c b.
Proof.
  induction a as [|d a IH]; cbn; [reflexivity|]. rewrite IH. now rewrite orb_assoc.
Qed.

End StrFacts.

(** * Facts about the matcher *)

Section ReFacts.

Lemma dead_nullable r : dead r = true -> nullable r = false.
Proof.
  induction r as [| | p | r1 IH1 r2 IH2 | r1 IH1 r2 IH2]; cbn; try congruence.
  - intros H. rewrite IH1 by exact H. reflexivity.
  - intros H. apply andb_prop in H as [H1 H2]. rewrite IH1, IH2; auto.
Qed.

Lemma dead_deriv c r : dead r = true -> dead (deriv c r) = true.
Proof.
  induction r as [| | p | r1 IH1 r2 IH2 | r1 IH1 r2 IH2]; cbn; try congruence.
  - intros H. rewrite (dead_nullable r1 H). cbn. auto.
  - intros H. apply andb_prop in H as [H1 H2]. rewrite IH1, IH2; auto.
Qed.

Lemma fullmatch_dead r s : dead r = true -> fullmatch r s = false.
Proof.
  revert r. induction s as [|c s IH]; intros r H; cbn.
  - now apply dead_nullable.
  - apply IH. now apply dead_deriv.
Qed.

Lemma match_dead r s : dead r = true -> match_ r s = false.
Proof.
  revert r. induction s as [|c s IH]; intros r H; cbn.
  - rewrite dead_nullable by exact H. reflexivity.
  - rewrite dead_nullable by exact H. cbn. apply IH. now apply dead_deriv.
Qed.

Lemma match_nullable r s : nullable r = true -> match_ r s = true.
Proof. intros H. destruct s; cbn; rewrite H; reflexivity. Qed.

Lemma fullmatch_Alt r1 r2 s :
  fullmatch (Alt r1 r2) s = fullmatch r1 s || fullmatch r2 s.
Proof.
  revert r1 r2. induction s as [|c s IH]; intros r1 r2; cbn; [reflexivity|]. apply IH.
Qed.

Lemma fullmatch_Eps s : fullmatch Eps s = negb (truthy s).
Proof. destruct s; cbn; [reflexivity|]. now apply fullmatch_dead. Qed.

Lemma fullmatch_Cat_Eps r s : fullmatch (Cat Eps r) s = fullmatch r s.
Proof.
  destruct s as [|c s]; cbn; [reflexivity|].
  rewrite fullmatch_Alt, fullmatch_dead by reflexivity. reflexivity.
Qed.

Lemma fullmatch_Cat_Class p r s :
  fullmatch (Cat (Class p) r) s =
  match s with "" => false | String c s' => p c && fullmatch r s' end.
Proof.
  destruct s as [|c s]; cbn; [reflexivity|].
  destruct (p c); cbn.
  - apply fullmatch_Cat_Eps.
  - now apply fullmatch_dead.
Qed.

Lemma fullmatch_Class p s :
  fullmatch (Class p) s = match s with String c "" => p c | _ => false end.
Proof.
  destruct s as [|c s]; cbn; [reflexivity|].
  destruct (p c).
  - rewrite fullmatch_Eps. destruct s; reflexivity.
  - rewrite fullmatch_dead by reflexivity. destruct s; reflexivity.
Qed.

Lemma fullmatch_Cat_Alt r1 r2 r s :
  fullmatch (Cat (Alt r1 r2) r) s = fullmatch (Cat r1 r) s || fullmatch (Cat r2 r) s.
Proof.
  revert r1 r2. induction s as [|c s IH]; intros r1 r2; cbn.
  - destruct (nullable r1), (nullable r2), (nullable r); reflexivity.
  - destruct (nullable r1), (nullable r2); cbn; rewrite ?fullmatch_Alt, IH;
      destruct (fullmatch (Cat (deriv c r1) r) s),
        (fullmatch (Cat (deriv c r2) r) s), (fullmatch (deriv c r) s); reflexivity.
Qed.

Lemma fullmatch_Cat_assoc r1 r2 r s :
  fullmatch (Cat (Cat r1 r2) r) s = fullmatch (Cat r1 (Cat r2 r)) s.
Proof.
  revert r1 r2 r. induction s as [|c s IH]; intros r1 r2 r; cbn.
  - now rewrite andb_assoc.
  - destruct (nullable r1), (nullable r2); cbn;
      rewrite ?fullmatch_Alt, ?fullmatch_Cat_Alt, ?fullmatch_Alt, ?IH, ?orb_assoc;
      reflexivity.
Qed.

Lemma match_Alt r1 r2 s : match_ (Alt r1 r2) s = match_ r1 s || match_ r2 s.
Proof.
  revert r1 r2. induction s as [|c s IH]; intros r1 r2; cbn.
  - now rewrite !orb_false_r.
  - rewrite IH.
    destruct (nullable r1), (nullable r2), (match_ (deriv c r1) s); reflexivity.
Qed.

Lemma match_Cat_Alt r1 r2 r s :
  match_ (Cat (Alt r1 r2) r) s = match_ (Cat r1 r) s || match_ (Cat r2 r) s.
Proof.
  revert r1 r2. induction s as [|c s IH]; intros r1 r2; cbn.
  - destruct (nullable r1), (nullable r2), (nullable r); reflexivity.
  - destruct (nullable r1), (nullable r2); cbn; rewrite ?match_Alt, IH;
      destruct (nullable r), (match_ (Cat (deriv c r1) r) s),
        (match_ (Cat (deriv c r2) r) s), (match_ (deriv c r) s); reflexivity.
Qed.

Lemma match_Cat_assoc r1 r2 r s :
  match_ (Cat (Cat r1 r2) r) s = match_ (Cat r1 (Cat r2 r)) s.
Proof.
  revert r1 r2 r. induction s as [|c s IH]; intros r1 r2 r; cbn.
  - now rewrite andb_assoc.
  - rewrite andb_assoc. f_equal.
    destruct (nullable r1), (nullable r2); cbn;
      rewrite ?match_Alt, ?match_Cat_Alt, ?match_Alt, ?IH, ?orb_assoc; reflexivity.
Qed.

Lemma match_Cat_Eps r s : match_ (Cat Eps r) s = match_ r s.
Proof.
  destruct s as [|c s]; cbn; [reflexivity|].
  rewrite match_Alt, (match_dead (Cat Fail r)) by reflexivity. reflexivity.
Qed.

Lemma match_Cat_Class p r s :
  match_ (Cat (Class p) r) s =
  match s with "" => false | String c s' => p c && match_ r s' end.
Proof.
  destruct s as [|c s]; cbn; [reflexivity|].
  destruct (p c); cbn.
  - apply match_Cat_Eps.
  - now apply match_dead.
Qed.

End ReFacts.

(** Decide the character tests of a goal: a test against a variable splits
    in two, a test between two literals is evaluated. *)
Ltac eqb_cases :=
  repeat match goal with
  | |- context [Ascii.eqb ?a ?b] =>
      first [ is_var b; destruct (Ascii.eqb_spec a b); [subst b|]
            | is_var a; destruct (Ascii.eqb_spec a b); [subst a|]
            | let v := eval vm_compute in (Ascii.eqb a b) in
              change (Ascii.eqb a b) with v ]
  end.

(** * The patterns of the code, read as plain tests on strings *)

Section Patterns.

Lemma fullmatch_issn8 s : fullmatch re_issn8 s = is_8_digits s.
Proof.
  unfold re_issn8, is_8_digits. cbn [Rep].
  do 8 (rewrite fullmatch_Cat_Class; destruct s as [|? s]; [reflexivity|];
        cbn [all]; destruct (isdigit _); cbn [andb]; [|now rewrite andb_false_r]).
  rewrite fullmatch_Eps. destruct s; reflexivity.
Qed.

Lemma match_url s : match_ re_url s = has_url_scheme s.
Proof.
  unfold re_url, has_url_scheme. cbn [Lit]. unfold Opt, Chr.
  rewrite match_Cat_Alt, !match_Cat_assoc.
  do 8 (rewrite ?match_Cat_assoc, ?match_Cat_Eps, ?match_Cat_Alt,
                ?match_Cat_assoc, ?match_Cat_Eps, ?match_Cat_Class;
        destruct s as [|? s]; cbn [startswith andb orb]; [try reflexivity|];
        eqb_cases; cbn [startswith andb orb]; try reflexivity).
  all: rewrite match_nullable by reflexivity; reflexivity.
Qed.

End Patterns.

Ltac split_andb :=
  repeat match goal with
  | H : _ && _ = true |- _ => apply andb_prop in H; destruct H
  | H : true = true |- _ => clear H
  end.

Section Normalizers.

Lemma ascii_eqb_sym a b : Ascii.eqb a b = Ascii.eqb b a.
Proof.
  destruct (Ascii.eqb_spec a b) as [->|N]; [now rewrite Ascii.eqb_refl|].
  destruct (Ascii.eqb_spec b a); congruence.
Qed.

Lemma fullmatch_issn_hyph s : fullmatch re_issn_hyph s = is_hyphenated_issn s.
Proof.
  unfold re_issn_hyph, is_hyphenated_issn, Chr. cbn [Rep].
  do 10 (try destruct s as [|? s]);
  repeat first [ rewrite fullmatch_Cat_assoc | rewrite fullmatch_Cat_Eps
               | rewrite fullmatch_Cat_Class; cbv beta iota
               | rewrite fullmatch_Class; cbv beta iota ];
  cbn [String.length Nat.eqb slice_to slice_from all String.eqb andb];
  rewrite ?andb_false_r, ?andb_true_r; try reflexivity.
  rewrite (ascii_eqb_sym "-").
  destruct (Ascii.eqb _ "-"); cbn [andb];
    rewrite ?andb_false_r, ?andb_true_r, ?andb_assoc; reflexivity.
Qed.

(** The code's two pattern tests are the two tests of the specification. *)
Lemma fmt_issn_normalize v : _fmt_issn v = normalizeISSN v.
Proof.
  unfold _fmt_issn, normalizeISSN. cbv zeta.
  now rewrite fullmatch_issn8, fullmatch_issn_hyph.
Qed.

Lemma url_normalize v : _url_or_empty v = normalizeURL v.
Proof.
  unfold _url_or_empty, normalizeURL. cbv zeta. rewrite match_url.
  destruct (_safe v) as [|c t]; [reflexivity|]. reflexivity.
Qed.

Lemma isdigit_not_hyphen c : isdigit c = true -> Ascii.eqb c "-" = false.
Proof. destruct (Ascii.eqb_spec c "-") as [->|]; [discriminate | reflexivity]. Qed.

Lemma isdigit_or_X_not_hyphen c :
  isdigit c || Ascii.eqb c "X" = true -> Ascii.eqb c "-" = false.
Proof. destruct (Ascii.eqb_spec c "-") as [->|]; [discriminate | reflexivity]. Qed.

Lemma isdigit_or_X_not_space c :
  isdigit c || Ascii.eqb c "X" = true -> isspace c = false.
Proof.
  intros H. apply orb_prop in H as [H|H].
  - now apply isdigit_not_space.
  - apply Ascii.eqb_eq in H. now subst.
Qed.

Lemma replace_ne old new c s :
  Ascii.eqb c old = false -> replace old new (String c s) = String c (replace old new s).
Proof. intros H. cbn. now rewrite H. Qed.

Lemma replace_eq old new s :
  replace old new (String old s) = new +:+ replace old new s.
Proof. cbn. now rewrite Ascii.eqb_refl. Qed.

Ltac use_digits :=
  repeat match goal with
  | H : isdigit _ = _ |- _ => rewrite H
  | H : Ascii.eqb _ _ = _ |- _ => rewrite H
  end.

(** A hyphenated ISSN is returned as it is. *)
Lemma fmt_issn_hyphenated s : is_hyphenated_issn s = true -> _fmt_issn (Text s) = s.
Proof.
  intros H. unfold is_hyphenated_issn in H.
  do 10 (try destruct s as [|? s]);
    cbn [String.length Nat.eqb slice_to slice_from all String.eqb andb] in H;
    try discriminate H.
  rewrite !andb_true_r in H. split_andb.
  match goal with H : (if Ascii.eqb ?c "-" then true else false) = true |- _ =>
    destruct (Ascii.eqb_spec c "-") as [->|]; [clear H | discriminate H] end.
  match goal with H : _ || _ = true |- _ =>
    pose proof (isdigit_or_X_not_hyphen _ H) as Hh;
    pose proof (isdigit_or_X_not_space _ H) as Hs end.
  rewrite fmt_issn_normalize. unfold normalizeISSN.
  rewrite safe_Text_fix; cycle 1.
  - cbn [lstrip]. now rewrite isdigit_not_space.
  - cbn [rstrip]. now rewrite Hs.
  - cbv zeta.
    repeat first [ rewrite replace_eq
                 | rewrite replace_ne by (first [exact Hh | now apply isdigit_not_hyphen]) ].
    cbn [replace String.append].
    unfold is_8_digits, is_hyphenated_issn.
    cbn [String.length Nat.eqb slice_to slice_from all String.eqb andb].
    match goal with H : isdigit ?c || _ = true |- _ =>
      rewrite H; destruct (isdigit c) eqn:E9 end;
    use_digits; cbn [andb String.append]; reflexivity.
Qed.

Lemma fmt_issn_empty : _fmt_issn (Text "") = "".
Proof. reflexivity. Qed.

(** Every value the normalizer returns is empty or a hyphenated ISSN. *)
Lemma fmt_issn_range v :
  _fmt_issn v = "" \/ is_hyphenated_issn (_fmt_issn v) = true.
Proof.
  rewrite fmt_issn_normalize. unfold normalizeISSN. cbv zeta.
  destruct (is_8_digits _) eqn:E8.
  - right. unfold is_8_digits in E8.
    destruct (replace "-" "" (_safe v)) as [|? s]; [discriminate|].
    do 8 (try destruct s as [|? s]);
      cbn [String.length Nat.eqb all andb] in E8; try discriminate E8.
    rewrite !andb_true_r in E8. split_andb.
    unfold is_hyphenated_issn.
    cbn [String.length Nat.eqb slice_to slice_from all String.eqb andb String.append].
    use_digits. reflexivity.
  - destruct (is_hyphenated_issn (_safe v)) eqn:Eh; auto.
Qed.

Lemma fmt_issn_idem v : _fmt_issn (Text (_fmt_issn v)) = _fmt_issn v.
Proof.
  destruct (fmt_issn_range v) as [E|E].
  - rewrite E. reflexivity.
  - now apply fmt_issn_hyphenated.
Qed.

End Normalizers.

(** * Facts about statements *)

Section StmtFacts.

Lemma additive_append x : additive (append x).
Proof. intros parts. reflexivity. Qed.

Lemma additive_when c s : additive s -> additive (when c s).
Proof.
  intros H parts. unfold when. destruct c; [apply H|]. now rewrite app_nil_r.
Qed.

Lemma block_nil parts : block [] parts = parts.
Proof. reflexivity. Qed.

Lemma block_cons s body parts : block (s :: body) parts = block body (s parts).
Proof. reflexivity. Qed.

Lemma additive_block body : Forall additive body -> additive (block body).
Proof.
  induction 1 as [|s body Hs _ IH]; intros parts.
  - cbn. now rewrite app_nil_r.
  - rewrite !block_cons. rewrite IH. rewrite (IH (s [])). rewrite (Hs parts).
    now rewrite <- app_assoc.
Qed.

(** What a block appends is what its statements append, in order. *)
Lemma block_emit body :
  Forall additive body -> block body [] = concat (map (fun s => s []) body).
Proof.
  induction 1 as [|s body Hs Hb IH]; [reflexivity|].
  rewrite block_cons. rewrite (additive_block body Hb). rewrite IH. reflexivity.
Qed.

Lemma when_emit c s : when c s [] = opt c (s []).
Proof. destruct c; reflexivity. Qed.

Lemma append_emit x : append x [] = [x].
Proof. reflexivity. Qed.

End StmtFacts.

(** Statements proved additive later are added to this database. *)
Create HintDb additive.

Ltac additivity :=
  repeat first [ apply additive_append
               | apply additive_when
               | apply additive_block
               | apply List.Forall_cons
               | apply List.Forall_nil
               | solve [auto with additive] ].

Ltac emit_parts :=
  repeat first [ rewrite block_emit by additivity; cbn [map concat]
               | rewrite when_emit
               | rewrite append_emit ].

(** * The journal fragment *)

Section Journal.

Context {pd : Pandas}.

Lemma of_nat_truthy n : truthy (PyStr.of_nat n) = true.
Proof.
  unfold PyStr.of_nat.
  pose proof (DecimalNat.Unsigned.to_of (Nat.to_uint n)) as H.
  rewrite DecimalNat.Unsigned.of_to in H. rewrite H.
  unfold Decimal.unorm. destruct (Decimal.nzhead _); reflexivity.
Qed.

Lemma zfill_truthy w n : truthy (zfill w (PyStr.of_nat n)) = true.
Proof. unfold zfill. apply truthy_app_r, of_nat_truthy. Qed.

(** What [_ymd] does with a value: three empty strings when it is no
    date, the year, month and day, all non-empty, when [strftime] can
    print the date, and [NotImplementedError] when it cannot. *)
Lemma ymd_outcome v :
  match to_datetime v with
  | None => _ymd v = Ok ("", "", "")
  | Some dt =>
      if datetime_years dt
      then _ymd v = Ok (PyStr.of_nat (Z.to_nat (ts_year dt)),
                        zfill 2 (PyStr.of_nat (ts_month dt)),
                        zfill 2 (PyStr.of_nat (ts_day dt)))
      else _ymd v = Raise NotImplementedError
  end.
Proof.
  unfold _ymd, strftime_Y, strftime_m, strftime_d.
  destruct (to_datetime v) as [dt|]; [|reflexivity].
  destruct (datetime_years dt); reflexivity.
Qed.

Lemma ymd_raise v e : _ymd v = Raise e -> e = NotImplementedError.
Proof.
  pose proof (ymd_outcome v) as H.
  destruct (to_datetime v) as [dt|]; [destruct (datetime_years dt)|];
    rewrite H; congruence.
Qed.

(** A triple that [_ymd] returns is whole or empty. *)
Lemma ymd_whole_or_empty v date :
  _ymd v = Ok date ->
  (date = ("", "", "") /\ to_datetime v = None)
  \/ (whole date = true /\ exists dt, to_datetime v = Some dt /\ datetime_years dt = true).
Proof.
  pose proof (ymd_outcome v) as H.
  destruct (to_datetime v) as [dt|]; [destruct (datetime_years dt) eqn:E|];
    rewrite H; intros [= <-].
  - right. split; [|eauto]. unfold whole.
    now rewrite of_nat_truthy, !zfill_truthy.
  - now left.
Qed.

(** The journal fragment is the metadata element followed by the issue
    element. *)
Lemma journal_parts_elements journal print online :
  journal_parts journal print online
  = journal_metadata_element journal ++ journal_issue_element journal print online.
Proof.
  unfold journal_parts, journal_metadata_element, journal_issue_element,
    doi_data_element, date_element, whole.
  destruct print as [[y_p m_p] d_p], online as [[y_o m_o] d_o].
  cbv beta iota zeta.
  emit_parts; cbn [opt app]; rewrite ?app_nil_r, <- ?app_assoc; reflexivity.
Qed.

End Journal.

(** * The article fragment *)

Section Article.

Context {pd : Pandas}.

(** The [strip] around the joined names changes nothing: the names
    come out of [_safe] already trimmed. *)
Lemma given_name_joined article i :
  let a := slot article i in
  truthy (fname a) = true ->
  strip (join " " (List.filter truthy [fname a; mname a])) = given_name a.
Proof.
  cbv zeta. unfold given_name, slot. cbn [fname mname].
  set (f := _safe (get article ("author" +:+ PyStr.of_nat i +:+ "_fname"))).
  set (m := _safe (get article ("author" +:+ PyStr.of_nat i +:+ "_mname"))).
  intros Hf. cbn [List.filter]. rewrite Hf.
  destruct (truthy m) eqn:Hm; cbn [join].
  - apply strip_fix.
    + apply lstrip_app; [apply safe_lstrip | exact Hf].
    + rewrite <- app_assoc_str. apply rstrip_app; [apply safe_rstrip | exact Hm].
  - apply strip_fix; [apply safe_lstrip | apply safe_rstrip].
Qed.

(** One turn of the author loop: a slot with a given name appends its
    entry and sets [first_written]; any other slot changes nothing. *)
Lemma author_iteration_step article parts first_written i :
  author_iteration article (parts, first_written) i =
  if truthy (fname (slot article i))
  then (parts ++ person_name (if first_written then "additional" else "first")
                             (slot article i), true)
  else (parts, first_written).
Proof.
  unfold author_iteration. cbv zeta.
  change (_safe (get article ("author" +:+ PyStr.of_nat i +:+ "_fname")))
    with (fname (slot article i)).
  change (_safe (get article ("author" +:+ PyStr.of_nat i +:+ "_mname")))
    with (mname (slot article i)).
  change (_safe (get article ("author" +:+ PyStr.of_nat i +:+ "_lname")))
    with (lname (slot article i)).
  change (_safe (get article ("author" +:+ PyStr.of_nat i +:+ "_inst")))
    with (inst (slot article i)).
  destruct (truthy (fname (slot article i))) eqn:Hf; [|reflexivity].
  rewrite (given_name_joined article i Hf).
  f_equal.
  assert (A : additive (block
    [ append ("            <person_name contributor_role='author' sequence='"
              +:+ (if negb first_written then "first" else "additional") +:+ "'>");
      append ("                <given_name>" +:+ given_name (slot article i)
              +:+ "</given_name>");
      when (truthy (lname (slot article i)))
        (append ("                <surname>" +:+ lname (slot article i) +:+ "</surname>"));
      when (truthy (inst (slot article i)))
        (append ("                <affiliation>" +:+ inst (slot article i)
                 +:+ "</affiliation>"));
      append "            </person_name>" ])) by additivity.
  rewrite (A parts). f_equal.
  emit_parts. unfold person_name, person_name_open.
  destruct first_written; reflexivity.
Qed.

Lemma marks_true n : marks true n = repeat "additional" n.
Proof. destruct n; reflexivity. Qed.

Lemma entries_cons first_written a l :
  entries first_written (a :: l) =
  person_name (if first_written then "additional" else "first") a ++ entries true l.
Proof.
  unfold entries. cbn [length marks combine flat_map]. now rewrite marks_true.
Qed.

Lemma author_fold article indices parts first_written :
  fst (fold_left (author_iteration article) indices (parts, first_written)) =
  parts ++ entries first_written (named (map (slot article) indices)).
Proof.
  revert parts first_written.
  induction indices as [|i indices IH]; intros parts first_written.
  - cbn. now rewrite app_nil_r.
  - cbn [fold_left map named List.filter]. rewrite author_iteration_step.
    fold (named (map (slot article) indices)).
    destruct (truthy (fname (slot article i))).
    + rewrite IH, entries_cons. now rewrite <- app_assoc.
    + apply IH.
Qed.

Lemma author_loop_contributors article parts :
  author_loop article parts = parts ++ contributors article.
Proof. unfold author_loop, contributors, slots. apply author_fold. Qed.

Lemma additive_author_loop article : additive (author_loop article).
Proof.
  intros parts. rewrite !author_loop_contributors. reflexivity.
Qed.

Lemma author_loop_emit article : author_loop article [] = contributors article.
Proof. apply author_loop_contributors. Qed.

#[local] Hint Resolve additive_author_loop : additive.

(** The parts of an article are its elements in the order of the schema. *)
Lemma article_parts_element article title doi resource date :
  article_parts article title doi resource date
  = article_element article title doi resource date.
Proof.
  unfold article_parts, article_element, date_element, whole, journal_article_open.
  destruct date as [[y m] d].
  cbv beta iota zeta.
  emit_parts; rewrite author_loop_emit; cbn [opt app];
  rewrite ?app_nil_r, <- ?app_assoc; reflexivity.
Qed.

End Article.

(** * Reading the fragments *)

Section Sections.

Context {pd : Pandas}.

Lemma emits_app tag l1 l2 : emits tag (l1 ++ l2) = emits tag l1 || emits tag l2.
Proof. unfold emits. apply existsb_app. Qed.

Lemma through_app stop l rest :
  forallb (fun x => negb (String.eqb x stop)) l = true ->
  through stop (l ++ stop :: rest) = l ++ [stop].
Proof.
  induction l as [|x l IH]; cbn [forallb app through]; intros H.
  - now rewrite String.eqb_refl.
  - apply andb_prop in H as [Hx Hl]. apply negb_true_iff in Hx. rewrite Hx.
    now rewrite IH.
Qed.

Lemma beyond_app stop l rest :
  forallb (fun x => negb (String.eqb x stop)) l = true ->
  beyond stop (l ++ stop :: rest) = rest.
Proof.
  induction l as [|x l IH]; cbn [forallb app beyond]; intros H.
  - now rewrite String.eqb_refl.
  - apply andb_prop in H as [Hx Hl]. apply negb_true_iff in Hx. rewrite Hx.
    now apply IH.
Qed.

Lemma forallb_app_true {A} (p : A -> bool) l1 l2 :
  forallb p l1 = true -> forallb p l2 = true -> forallb p (l1 ++ l2) = true.
Proof. intros H1 H2. rewrite forallb_app, H1, H2. reflexivity. Qed.

(** The metadata element without its closing line. *)
Lemma metadata_body journal :
  exists body,
    journal_metadata_element journal = body ++ ["</journal_metadata>"]
    /\ forallb (fun x => negb (String.eqb x "</journal_metadata>")) body = true.
Proof.
  unfold journal_metadata_element, doi_data_element. cbv zeta.
  eexists. split.
  - rewrite !app_assoc. reflexivity.
  - repeat apply forallb_app_true;
      try match goal with |- context [opt ?c _] => destruct c end;
      try reflexivity.
    cbn [opt]. repeat apply forallb_app_true;
      try match goal with |- context [opt ?c _] => destruct c end;
      reflexivity.
Qed.

Lemma metadata_section_parts journal print online :
  metadata_section (journal_parts journal print online) = journal_metadata_element journal.
Proof.
  rewrite journal_parts_elements.
  destruct (metadata_body journal) as (body & -> & Hb).
  unfold metadata_section. rewrite <- app_assoc. cbn [app].
  now apply through_app.
Qed.

Lemma issue_section_parts journal print online :
  issue_section (journal_parts journal print online)
  = journal_issue_element journal print online.
Proof.
  rewrite journal_parts_elements.
  destruct (metadata_body journal) as (body & -> & Hb).
  unfold issue_section. rewrite <- app_assoc. cbn [app].
  now apply beyond_app.
Qed.

Lemma emits_opt tag c l : emits tag (opt c l) = c && emits tag l.
Proof. destruct c; reflexivity. Qed.

Lemma url_truthy v : truthy (_url_or_empty v) = has_url_scheme (_safe v).
Proof.
  rewrite url_normalize. unfold normalizeURL. cbv zeta.
  destruct (has_url_scheme (_safe v)) eqn:E; [|reflexivity].
  destruct (_safe v); [discriminate E | reflexivity].
Qed.

(** A value resolves when pandas reads a date in it and [strftime] can
    print that date. *)
Lemma resolved_in_years v :
  resolved v = match to_datetime v with
               | Some dt => datetime_years dt
               | None => false
               end.
Proof.
  unfold resolved. pose proof (ymd_outcome v) as H.
  destruct (to_datetime v) as [dt|]; [destruct (datetime_years dt)|];
    rewrite H; try reflexivity.
  unfold whole. now rewrite of_nat_truthy, !zfill_truthy.
Qed.

(** What [_ymd] returns is what decides the date element. *)
Lemma resolved_whole v date : _ymd v = Ok date -> whole date = resolved v.
Proof. unfold resolved. now intros ->. Qed.

Lemma formats_in_years v :
  formats v = match to_datetime v with
              | Some dt => datetime_years dt
              | None => true
              end.
Proof.
  unfold formats. pose proof (ymd_outcome v) as H.
  destruct (to_datetime v) as [dt|]; [destruct (datetime_years dt)|];
    now rewrite H.
Qed.

Lemma formats_ymd_of v : formats v = true -> _ymd v = Ok (ymd_of v).
Proof. unfold formats, ymd_of. destruct (_ymd v); [reflexivity | discriminate]. Qed.

Lemma not_formats_raise v : formats v = false -> _ymd v = Raise NotImplementedError.
Proof.
  unfold formats. destruct (_ymd v) as [date|e] eqn:E; [discriminate|].
  intros _. now rewrite (ymd_raise v e E).
Qed.

End Sections.

(** Evaluate [emits] on a list whose lines open with literal text. *)
Ltac emits_eval :=
  repeat (progress
    (rewrite ?emits_app, ?emits_opt;
     cbn [emits existsb startswith andb orb date_element];
     eqb_cases; cbn [andb orb];
     rewrite ?andb_false_r, ?andb_true_r, ?orb_false_r, ?orb_false_l)).

Section Emits.
Context {pd : Pandas}.

(** Which elements the metadata fragment holds. *)
Lemma emits_metadata journal :
  let md := journal_metadata_element journal in
  emits "    <full_title>" md = true
  /\ emits "    <abbrev_title>" md = truthy (_safe (get journal "Abbrev"))
  /\ emits "    <issn media_type='print'>" md = truthy (_fmt_issn (get journal "Print_ISSN"))
  /\ emits "    <issn media_type='electronic'>" md
     = truthy (_fmt_issn (get journal "Electronic_ISSN"))
  /\ emits "    <doi_data>" md
     = truthy (_safe (get journal "Journal_DOI"))
       || truthy (_url_or_empty (get journal "Journal_URL"))
  /\ emits "        <doi>" md = truthy (_safe (get journal "Journal_DOI"))
  /\ emits "        <resource>" md = truthy (_url_or_empty (get journal "Journal_URL")).
Proof.
  unfold journal_metadata_element, doi_data_element. cbv zeta.
  repeat split.
  all: emits_eval.
  all: try reflexivity.
  all: try (destruct (truthy _), (truthy _); reflexivity).
Qed.

(** Which elements the issue fragment holds. *)
Lemma emits_issue journal print online :
  let js := journal_issue_element journal print online in
  emits "    <publication_date media_type='print'>" js = whole print
  /\ emits "    <publication_date media_type='online'>" js = whole online
  /\ emits "    <doi_data>" js
     = truthy (_safe (get journal "Issue_DOI"))
       || truthy (_url_or_empty (get journal "Issue_URL"))
  /\ emits "        <resource>" js = truthy (_url_or_empty (get journal "Issue_URL")).
Proof.
  unfold journal_issue_element, doi_data_element. cbv zeta.
  destruct print as [[y_p m_p] d_p], online as [[y_o m_o] d_o].
  repeat split; emits_eval; try reflexivity;
  repeat match goal with
         | |- context [whole ?d] => destruct (whole d)
         | |- context [truthy ?x] => destruct (truthy x)
         end; reflexivity.
Qed.
End Emits.

(** * The article loop and the driver *)

Section Driver.

Context {pd : Pandas}.

Lemma lacks_resource_scheme article :
  lacks_resource article = negb (has_url_scheme (_safe (get article "fulltext_url"))).
Proof. unfold lacks_resource. now rewrite url_truthy. Qed.

(** One turn of the loop: the error that stops it, or the block. *)
Lemma article_iteration_stops article :
  article_iteration article
  = match stops article with
    | Some e => Raise e
    | None => Ok (article_block article)
    end.
Proof.
  unfold article_iteration, stops, article_block, ymd_of. cbv zeta.
  change (negb (truthy (_url_or_empty (get article "fulltext_url"))))
    with (lacks_resource article).
  destruct (lacks_resource article); [reflexivity|].
  destruct (_ymd (get article "publication_date")) as [date|e]; cbn [bind];
    [|reflexivity].
  now rewrite article_parts_element.
Qed.

Lemma stops_lacking article :
  lacks_resource article = true ->
  stops article = Some (ValueError (missing_resource_message article)).
Proof. intros H. unfold stops. now rewrite H. Qed.

Lemma stops_undated article :
  lacks_resource article = false -> dated article = false ->
  stops article = Some NotImplementedError.
Proof.
  intros H D. unfold stops. rewrite H.
  now rewrite (not_formats_raise _ D).
Qed.

Lemma stops_none article :
  stops article = None <-> lacks_resource article = false /\ dated article = true.
Proof.
  unfold stops, dated, formats.
  destruct (lacks_resource article); [split; [discriminate | intros [? _]; discriminate]|].
  destruct (_ymd (get article "publication_date")); cbn [is_ok];
    split; try discriminate; auto.
  intros [_ ?]. discriminate.
Qed.

Lemma article_iteration_ok article :
  lacks_resource article = false -> dated article = true ->
  article_iteration article = Ok (article_block article).
Proof.
  intros H D. rewrite article_iteration_stops.
  now rewrite (proj2 (stops_none article) (conj H D)).
Qed.

Lemma article_iteration_raise article :
  lacks_resource article = true ->
  article_iteration article = Raise (ValueError (missing_resource_message article)).
Proof. intros H. now rewrite article_iteration_stops, stops_lacking. Qed.

(** The loop stops at the first record that stops it; without one it
    appends one block per record, in the order of the records. *)
Lemma article_loop_stops rows article_xml_list :
  article_loop rows article_xml_list
  = match first_stop rows with
    | Some e => Raise e
    | None => Ok (article_xml_list ++ map article_block rows)
    end.
Proof.
  revert article_xml_list.
  induction rows as [|r rows IH]; intros acc; cbn [article_loop first_stop map].
  - now rewrite app_nil_r.
  - rewrite article_iteration_stops.
    destruct (stops r) as [e|]; cbn [bind]; [reflexivity|].
    rewrite IH. destruct (first_stop rows); [reflexivity|].
    now rewrite <- app_assoc.
Qed.

Lemma first_stop_none rows :
  first_stop rows = None
  <-> Forall (fun r => lacks_resource r = false /\ dated r = true) rows.
Proof.
  induction rows as [|r rows IH]; cbn [first_stop].
  - split; [intros _; apply List.Forall_nil | reflexivity].
  - rewrite List.Forall_cons_iff, <- IH, <- stops_none.
    destruct (stops r); [|tauto].
    split; [discriminate | intros [? _]; discriminate].
Qed.

(** With every resource accepted and every date printed the loop appends
    one block per record, in the order of the records. *)
Lemma article_loop_ok rows article_xml_list :
  Forall (fun r => lacks_resource r = false /\ dated r = true) rows ->
  article_loop rows article_xml_list = Ok (article_xml_list ++ map article_block rows).
Proof.
  intros H. rewrite article_loop_stops.
  now rewrite (proj2 (first_stop_none rows) H).
Qed.

(** A record without a resource stops the loop, if nothing did before. *)
Lemma first_stop_lacking rows :
  Exists (fun r => lacks_resource r = true) rows ->
  exists e, first_stop rows = Some e.
Proof.
  induction 1 as [x rows Hx | x rows _ IH]; cbn [first_stop].
  - rewrite (stops_lacking x Hx). eauto.
  - destruct (stops x); eauto.
Qed.

(** The loop stops at the first record without a resource when the
    records before it have dates that print. *)
Lemma first_stop_find rows r :
  List.find lacks_resource rows = Some r ->
  Forall (fun x => dated x = true) (before_lacking rows) ->
  first_stop rows = Some (ValueError (missing_resource_message r)).
Proof.
  induction rows as [|x rows IH]; cbn [List.find first_stop before_lacking];
    [discriminate|].
  destruct (lacks_resource x) eqn:Hx.
  - intros [= ->] _. now rewrite stops_lacking.
  - intros Hf Hd. apply List.Forall_cons_iff in Hd as [Dx Hd].
    rewrite (proj2 (stops_none x) (conj Hx Dx)). now apply IH.
Qed.

Lemma article_loop_raise rows article_xml_list r :
  List.find lacks_resource rows = Some r ->
  Forall (fun x => dated x = true) (before_lacking rows) ->
  article_loop rows article_xml_list = Raise (ValueError (missing_resource_message r)).
Proof.
  intros Hf Hd. now rewrite article_loop_stops, (first_stop_find rows r Hf Hd).
Qed.

Lemma find_lacking rows :
  Exists (fun r => lacks_resource r = true) rows ->
  exists r, List.find lacks_resource rows = Some r /\ lacks_resource r = true.
Proof.
  induction 1 as [x rows Hx | x rows _ IH]; cbn [List.find].
  - rewrite Hx. eauto.
  - destruct (lacks_resource x) eqn:E; eauto.
Qed.

Lemma create_article_xml_stops self rows :
  article_data self = Some rows ->
  create_article_xml self
  = match first_stop rows with
    | Some e => Raise e
    | None => Ok (set_article_xml self (join nl (map article_block rows)))
    end.
Proof.
  intros Hd. unfold create_article_xml. rewrite Hd, article_loop_stops.
  destruct (first_stop rows); reflexivity.
Qed.

Lemma create_article_xml_raise self rows r :
  article_data self = Some rows ->
  List.find lacks_resource rows = Some r ->
  Forall (fun x => dated x = true) (before_lacking rows) ->
  create_article_xml self = Raise (ValueError (missing_resource_message r)).
Proof.
  intros Hd Hf Hb. now rewrite (create_article_xml_stops self rows Hd),
    (first_stop_find rows r Hf Hb).
Qed.

Lemma create_article_xml_ok self rows :
  article_data self = Some rows ->
  Forall (fun r => lacks_resource r = false /\ dated r = true) rows ->
  create_article_xml self = Ok (set_article_xml self (join nl (map article_block rows))).
Proof.
  intros Hd Hf. now rewrite (create_article_xml_stops self rows Hd),
    (proj2 (first_stop_none rows) Hf).
Qed.

(** The journal fragment of a row: the error of the first date that
    does not print, or the two elements. *)
Lemma journal_fragment_formats journal :
  journal_fragment journal
  = if formats (get journal "Pub_Date_Print") && formats (get journal "Pub_Date_Online")
    then Ok (journal_metadata_element journal
             ++ journal_issue_element journal (ymd_of (get journal "Pub_Date_Print"))
                                      (ymd_of (get journal "Pub_Date_Online")))
    else Raise NotImplementedError.
Proof.
  unfold journal_fragment.
  destruct (formats (get journal "Pub_Date_Print")) eqn:P.
  - rewrite (formats_ymd_of _ P). cbn [bind andb].
    destruct (formats (get journal "Pub_Date_Online")) eqn:O.
    + rewrite (formats_ymd_of _ O). cbn [bind]. now rewrite journal_parts_elements.
    + now rewrite (not_formats_raise _ O).
  - now rewrite (not_formats_raise _ P).
Qed.

(** What [read_excel_data] loads, when it loads. *)
Lemma read_excel_data_ok self w self' :
  read_excel_data self w = Ok self' ->
  exists jd ad,
    sheets w !! journal_file self = Some jd
    /\ sheets w !! article_file (initialize_article_file self) = Some ad
    /\ journal_data self' = Some jd /\ article_data self' = Some ad
    /\ base_filename self' = base_filename self
    /\ journal_file self' = journal_file self.
Proof.
  unfold read_excel_data.
  destruct (sheets w !! journal_file self) as [jd|] eqn:Ej; [|discriminate].
  cbn [initialize_article_file set_journal_data set_article_file article_file
         folder_path base_filename].
  destruct (sheets w !! os_path_join (folder_path self)
                           (base_filename self +:+ "_articles.xlsx"))
    as [ad|] eqn:Ea; [|discriminate].
  intros [= E]. subst self'. exists jd, ad. cbn. repeat split; auto.
Qed.

(** A failed assembly leaves the world as it was. *)
Lemma generate_xml_raise self w e :
  assemble self w = Raise e -> generate_xml self w = (Raise e, w).
Proof. intros H. unfold generate_xml. now rewrite H. Qed.

(** The document assembled by [generate_xml], case by case in the order
    the code meets them. *)
Lemma assemble_cases self w :
  assemble self w =
  match sheets w !! journal_file self with
  | None => Raise (FileNotFoundError (journal_file self +:+ " not found."))
  | Some jd =>
      match sheets w !! article_path self with
      | None => Raise (FileNotFoundError (article_path self +:+ " not found."))
      | Some ad =>
          match jd with
          | [] => Raise IndexError
          | journal :: _ =>
              if formats (get journal "Pub_Date_Print")
                 && formats (get journal "Pub_Date_Online")
              then
                match first_stop ad with
                | Some e => Raise e
                | None =>
                    let loaded :=
                      set_article_data
                        (set_article_file (set_journal_data self (Some jd))
                                          (article_path self))
                        (Some ad) in
                    let built :=
                      set_article_xml
                        (set_journal_xml loaded
                           (join nl
                              (journal_metadata_element journal
                               ++ journal_issue_element journal
                                    (ymd_of (get journal "Pub_Date_Print"))
                                    (ymd_of (get journal "Pub_Date_Online")))))
                        (join nl (map article_block ad)) in
                    let* combined_xml := combine_xml built w in
                    Ok (built, combined_xml)
                end
              else Raise NotImplementedError
          end
      end
  end.
Proof.
  unfold assemble, read_excel_data, article_path.
  destruct (sheets w !! journal_file self) as [jd|] eqn:Ej; [|reflexivity].
  cbn [initialize_article_file set_journal_data set_article_file article_file
         folder_path base_filename].
  destruct (sheets w !! os_path_join (folder_path self)
                           (base_filename self +:+ "_articles.xlsx"))
    as [ad|] eqn:Ea; [|reflexivity].
  cbn [bind]. unfold create_journal_xml.
  cbn [journal_data set_article_data set_article_file set_journal_data
         initialize_article_file].
  destruct jd as [|journal rest]; cbn [iloc0 bind]; [reflexivity|].
  rewrite journal_fragment_formats.
  destruct (formats (get journal "Pub_Date_Print")
            && formats (get journal "Pub_Date_Online")); cbn [bind]; [|reflexivity].
  erewrite create_article_xml_stops by (cbn; reflexivity).
  destruct (first_stop ad); reflexivity.
Qed.

(** A record without a resource makes the assembly fail. *)
Lemma assemble_lacking self w rows r :
  sheets w !! article_file (initialize_article_file self) = Some rows ->
  List.find lacks_resource rows = Some r ->
  exists e, assemble self w = Raise e
    /\ (forall journal rest, sheets w !! journal_file self = Some (journal :: rest) ->
          formats (get journal "Pub_Date_Print") = true ->
          formats (get journal "Pub_Date_Online") = true ->
          Forall (fun x => dated x = true) (before_lacking rows) ->
          e = ValueError (missing_resource_message r)).
Proof.
  intros Ha Hf. rewrite assemble_cases.
  change (article_file (initialize_article_file self)) with (article_path self) in Ha.
  rewrite Ha.
  assert (exists e, first_stop rows = Some e) as [e0 He0].
  { apply first_stop_lacking. apply List.find_some in Hf as [Hin Hr].
    apply List.Exists_exists. eauto. }
  destruct (sheets w !! journal_file self) as [[|journal rest]|].
  - eexists. split; [reflexivity|]. intros ? ? H. discriminate H.
  - destruct (formats (get journal "Pub_Date_Print")) eqn:P;
      destruct (formats (get journal "Pub_Date_Online")) eqn:O; cbn [andb].
    + rewrite He0. eexists. split; [reflexivity|].
      intros journal' rest' [= <- <-] _ _ Hb.
      rewrite (first_stop_find rows r Hf Hb) in He0. congruence.
    + eexists. split; [reflexivity|]. intros journal' rest' [= <- <-] _ O'. congruence.
    + eexists. split; [reflexivity|]. intros journal' rest' [= <- <-] P'. congruence.
    + eexists. split; [reflexivity|]. intros journal' rest' [= <- <-] P'. congruence.
  - eexists. split; [reflexivity|]. intros ? ? H. discriminate H.
Qed.

End Driver.
(** * File discovery *)

Section Discovery.

Lemma basename_no_slash f : contains "/" f = false -> os_path_basename f = f.
Proof.
  destruct f as [|c f]; [reflexivity|]. cbn [contains os_path_basename].
  intros H. apply orb_false_elim in H as [Hc Hf]. now rewrite Hf, Hc.
Qed.

Lemma basename_after_slash a f :
  contains "/" f = false -> os_path_basename (a +:+ String "/" f) = f.
Proof.
  intros Hf. induction a as [|c a IH]; cbn [String.append os_path_basename].
  - now rewrite Hf, Ascii.eqb_refl.
  - rewrite contains_app. cbn [contains]. rewrite Ascii.eqb_refl.
    cbn [orb]. rewrite orb_true_r. exact IH.
Qed.

Lemma endswith_slash a : endswith "/" a = true -> exists b, a = b +:+ "/".
Proof.
  induction a as [|c a IH]; cbn [endswith]; [discriminate|].
  intros H. apply orb_prop in H as [H|H].
  - apply String.eqb_eq in H. exists "". now rewrite H.
  - destruct (IH H) as [b ->]. now exists (String c b).
Qed.

Lemma startswith_slash_contains f : startswith "/" f = true -> contains "/" f = true.
Proof.
  destruct f as [|c f]; cbn [startswith contains]; [discriminate|].
  rewrite andb_true_r, ascii_eqb_sym. now intros ->.
Qed.

(** The base name of a joined path is the file name that was joined. *)
Lemma basename_join folder f :
  contains "/" f = false -> os_path_basename (os_path_join folder f) = f.
Proof.
  intros Hf. unfold os_path_join.
  destruct (startswith "/" f) eqn:Hs.
  - apply startswith_slash_contains in Hs. congruence.
  - destruct (truthy folder) eqn:Ht; cbn [negb orb].
    + destruct (endswith "/" folder) eqn:He.
      * destruct (endswith_slash _ He) as [b ->].
        rewrite app_assoc_str. now apply basename_after_slash.
      * now apply basename_after_slash.
    + apply truthy_empty in Ht. subst folder. now apply basename_no_slash.
Qed.

Lemma find_journal_in_ok folder listing p :
  find_journal_in folder listing = Ok p ->
  exists f, In f listing /\ endswith "_journal.xlsx" f = true
            /\ p = os_path_join folder f.
Proof.
  induction listing as [|x listing IH]; cbn [find_journal_in]; [discriminate|].
  destruct (endswith "_journal.xlsx" x) eqn:E.
  - intros [= <-]. exists x. cbn. auto.
  - intros H. destruct (IH H) as (f & Hin & He & Hp). exists f. cbn. auto.
Qed.

(** What the constructor leaves in the object. *)
Lemma init_ok folder w self :
  __init__ folder w = Ok self ->
  exists listing f,
    dirs w !! folder = Some listing
    /\ In f listing /\ endswith "_journal.xlsx" f = true
    /\ folder_path self = folder
    /\ journal_file self = os_path_join folder f
    /\ base_filename self = split_head "_" (os_path_basename (os_path_join folder f)).
Proof.
  unfold __init__, find_journal_file, setup_logging. cbn [folder_path].
  destruct (dirs w !! folder) as [listing|] eqn:Ed; [|discriminate].
  destruct (find_journal_in folder listing) as [p|e] eqn:Ef; [|discriminate].
  cbn [bind]. destruct (setup_logging_error (os w) _); [discriminate|].
  cbn [bind]. intros [= E]. subst self.
  destruct (find_journal_in_ok _ _ _ Ef) as (f & Hin & He & ->).
  exists listing, f. cbn. auto 10.
Qed.

Lemma split_head_truthy c f :
  truthy (split_head c f) = truthy f && negb (startswith (String c "") f).
Proof.
  destruct f as [|d f]; cbn [split_head truthy startswith andb]; [reflexivity|].
  rewrite andb_true_r, (ascii_eqb_sym c d). destruct (Ascii.eqb d c); reflexivity.
Qed.

Lemma endswith_truthy suf f :
  truthy suf = true -> endswith suf f = true -> truthy f = true.
Proof. destruct f, suf; cbn; congruence. Qed.

End Discovery.

(** * Reading the article fragment *)

Section ArticleLines.

Context {pd : Pandas}.

Lemma filter_flat_map {A} (P : string -> bool) (f : A -> list string) l :
  List.filter P (flat_map f l) = flat_map (fun x => List.filter P (f x)) l.
Proof.
  induction l as [|x l IH]; cbn [flat_map]; [reflexivity|].
  now rewrite List.filter_app, IH.
Qed.

Lemma marks_length first_written n : length (marks first_written n) = n.
Proof. destruct n; cbn [marks length]; [reflexivity|]. now rewrite repeat_length. Qed.

Lemma combine_flat_fst {A} (f : string -> string) (ms : list string) (l : list A) :
  length ms = length l ->
  flat_map (fun '(s, _) => [f s]) (combine ms l) = map f ms.
Proof.
  revert l. induction ms as [|m ms IH]; intros [|a l] H; try discriminate H;
    [reflexivity|].
  cbn [combine flat_map map app]. f_equal. apply IH. now injection H.
Qed.

Lemma combine_flat_snd {A} (g : A -> string) (ms : list string) (l : list A) :
  length ms = length l ->
  flat_map (fun '(_, a) => [g a]) (combine ms l) = map g l.
Proof.
  revert l. induction ms as [|m ms IH]; intros [|a l] H; try discriminate H;
    [reflexivity|].
  cbn [combine flat_map map app]. f_equal. apply IH. now injection H.
Qed.

Lemma flat_map_ext_pair {A B C} (f g : A * B -> list C) l :
  (forall s a, f (s, a) = g (s, a)) -> flat_map f l = flat_map g l.
Proof.
  intros H. induction l as [|[s a] l IH]; cbn [flat_map]; [reflexivity|].
  now rewrite H, IH.
Qed.

(** The lines of the entries that a test keeps, entry by entry. *)
Lemma filter_entries P (g : string -> author_slot -> list string) first_written l :
  (forall s a, List.filter P (person_name s a) = g s a) ->
  List.filter P (entries first_written l) =
  flat_map (fun '(s, a) => g s a) (combine (marks first_written (length l)) l).
Proof.
  intros H. unfold entries. rewrite filter_flat_map.
  apply flat_map_ext_pair. intros s a. apply H.
Qed.

Ltac lines_eval :=
  repeat (progress
    (cbn [List.filter startswith andb orb app opt date_element];
     eqb_cases; cbn [andb orb])).

Ltac date_cases :=
  match goal with
  | date : (string * string * string)%type |- _ =>
      let y := fresh "y" in let m := fresh "m" in let d := fresh "d" in
      destruct date as [[y m] d]; cbn [date_element]; destruct (whole (y, m, d))
  end.

Lemma person_open_lines s a :
  List.filter (startswith "            <person_name") (person_name s a)
  = [person_name_open s].
Proof.
  unfold person_name, person_name_open.
  destruct (truthy (lname a)), (truthy (inst a)); lines_eval; reflexivity.
Qed.

Lemma person_given_lines s a :
  List.filter (startswith "                <given_name>") (person_name s a)
  = ["                <given_name>" +:+ given_name a +:+ "</given_name>"].
Proof.
  unfold person_name, person_name_open.
  destruct (truthy (lname a)), (truthy (inst a)); lines_eval; reflexivity.
Qed.

Lemma entries_open_lines first_written l :
  List.filter (startswith "            <person_name") (entries first_written l)
  = map person_name_open (marks first_written (length l)).
Proof.
  rewrite (filter_entries _ (fun s _ => [person_name_open s]))
    by apply person_open_lines.
  apply combine_flat_fst, marks_length.
Qed.

Lemma entries_given_lines first_written l :
  List.filter (startswith "                <given_name>") (entries first_written l)
  = map (fun a => "                <given_name>" +:+ given_name a +:+ "</given_name>") l.
Proof.
  rewrite (filter_entries _
    (fun _ a => ["                <given_name>" +:+ given_name a +:+ "</given_name>"]))
    by apply person_given_lines.
  apply combine_flat_snd, marks_length.
Qed.

(** No entry holds a line that opens at the margin of the article
    block or of its direct children. *)
Lemma entries_no_lines tag first_written l :
  (forall s a, List.filter (startswith tag) (person_name s a) = []) ->
  List.filter (startswith tag) (entries first_written l) = [].
Proof.
  intros H. rewrite (filter_entries _ (fun _ _ => [])) by exact H.
  induction (combine _ l) as [|[s a] c IH]; [reflexivity | exact IH].
Qed.

Lemma person_no_article_lines s a :
  List.filter (startswith "    <journal_article") (person_name s a) = [].
Proof.
  unfold person_name, person_name_open.
  destruct (truthy (lname a)), (truthy (inst a)); lines_eval; reflexivity.
Qed.

Lemma person_no_date_lines s a :
  List.filter (startswith "        <publication_date") (person_name s a) = [].
Proof.
  unfold person_name, person_name_open.
  destruct (truthy (lname a)), (truthy (inst a)); lines_eval; reflexivity.
Qed.

Lemma article_open_lines article title doi resource date :
  List.filter (startswith "    <journal_article")
              (article_element article title doi resource date)
  = [journal_article_open].
Proof.
  unfold article_element, contributors, journal_article_open.
  rewrite !List.filter_app.
  rewrite (entries_no_lines _ _ _ person_no_article_lines).
  date_cases; destruct (truthy doi); lines_eval; reflexivity.
Qed.

Lemma article_person_lines article title doi resource date :
  List.filter (startswith "            <person_name")
              (article_element article title doi resource date)
  = map person_name_open (sequence_marks (length (named (slots article)))).
Proof.
  unfold article_element, contributors, journal_article_open, sequence_marks.
  rewrite !List.filter_app, entries_open_lines.
  date_cases; destruct (truthy doi); lines_eval; rewrite ?app_nil_r; reflexivity.
Qed.

Lemma article_given_lines article title doi resource date :
  List.filter (startswith "                <given_name>")
              (article_element article title doi resource date)
  = map (fun a => "                <given_name>" +:+ given_name a +:+ "</given_name>")
        (named (slots article)).
Proof.
  unfold article_element, contributors, journal_article_open.
  rewrite !List.filter_app, entries_given_lines.
  date_cases; destruct (truthy doi); lines_eval; rewrite ?app_nil_r; reflexivity.
Qed.

Lemma article_date_lines article title doi resource date :
  List.filter (startswith "        <publication_date")
              (article_element article title doi resource date)
  = if whole date then ["        <publication_date media_type='online'>"] else [].
Proof.
  unfold article_element, contributors, journal_article_open.
  rewrite !List.filter_app.
  rewrite (entries_no_lines _ _ _ person_no_date_lines).
  date_cases; destruct (truthy doi); lines_eval; reflexivity.
Qed.

End ArticleLines.

(** * The claims *)

Section Claims.

Context {pd : Pandas}.

(** C1. When some article record has no resource URL, or one that fails
    URL validation, [create_article_xml] raises: the loop stops at the
    first record that stops it, and that is the first record without a
    resource, with its [ValueError], when the dates of the records before
    it print.  [generate_xml] raises too, and the world it returns is the
    world it was given: no output file is written.  Its error is that
    [ValueError] once the journal sheet has a row whose two dates print. *)
Theorem missing_resource_aborts_batch self w rows :
  sheets w !! article_file (initialize_article_file self) = Some rows ->
  Exists (fun r => lacks_resource r = true) rows ->
  exists r,
    List.find lacks_resource rows = Some r
    /\ (forall g, article_data g = Some rows ->
          exists e,
            create_article_xml g = Raise e
            /\ first_stop rows = Some e
            /\ (Forall (fun x => dated x = true) (before_lacking rows) ->
                e = ValueError (missing_resource_message r)))
    /\ exists e,
         generate_xml self w = (Raise e, w)
         /\ (forall journal rest,
               sheets w !! journal_file self = Some (journal :: rest) ->
               formats (get journal "Pub_Date_Print") = true ->
               formats (get journal "Pub_Date_Online") = true ->
               Forall (fun x => dated x = true) (before_lacking rows) ->
               e = ValueError (missing_resource_message r)).
Proof.
  intros Hs Hex.
  destruct (find_lacking rows Hex) as (r & Hf & _).
  exists r. split; [exact Hf|]. split.
  - intros g Hg. destruct (first_stop_lacking rows Hex) as [e He].
    exists e. rewrite (create_article_xml_stops g rows Hg), He.
    split; [reflexivity|]. split; [reflexivity|].
    intros Hb. rewrite (first_stop_find rows r Hf Hb) in He. congruence.
  - destruct (assemble_lacking self w rows r Hs Hf) as (e & He & Hj).
    exists e. split; [now apply generate_xml_raise | exact Hj].
Qed.

(** C2. [_fmt_issn] is the normalization of the specification: hyphens
    are removed from the trimmed value; eight digits are returned with a
    hyphen after the fourth; otherwise a trimmed value made of four
    digits, a hyphen, three digits and a digit or X is returned as it is;
    otherwise the result is empty.  The function is total: it returns a
    string for every cell. *)
Theorem fmt_issn_follows_spec v :
  _fmt_issn v =
  (let trimmed := _safe v in
   let stripped := replace "-" "" trimmed in
   if is_8_digits stripped then slice_to 4 stripped +:+ "-" +:+ slice_from 4 stripped
   else if is_hyphenated_issn trimmed then trimmed
   else "").
Proof. exact (fmt_issn_normalize v). Qed.

(** C3. In the parts of an article the [person_name] entries are those
    of the author slots with a non-empty given name, in slot order; the
    first carries sequence 'first' and the later ones 'additional'; an
    empty slot adds nothing and does not move the marks, so that with
    slot 1 empty and slot 2 alone filled the one entry is marked
    'first'. *)
Theorem author_sequence_marking article title doi resource date :
  let authors := named (slots article) in
  let parts := article_parts article title doi resource date in
  parts = article_element article title doi resource date
  /\ List.filter (startswith "            <person_name") parts
     = map person_name_open (sequence_marks (length authors))
  /\ List.filter (startswith "                <given_name>") parts
     = map (fun a => "                <given_name>" +:+ given_name a +:+ "</given_name>")
           authors
  /\ (fname (slot article 1) = "" ->
      truthy (fname (slot article 2)) = true ->
      fname (slot article 3) = "" ->
      fname (slot article 4) = "" ->
      fname (slot article 5) = "" ->
      List.filter (startswith "            <person_name") parts
      = [person_name_open "first"]).
Proof.
  cbv zeta. rewrite article_parts_element.
  split; [reflexivity|]. split; [apply article_person_lines|].
  split; [apply article_given_lines|].
  intros H1 H2 H3 H4 H5. rewrite article_person_lines.
  unfold slots, named. cbn [seq map List.filter].
  rewrite H1, H2, H3, H4, H5. reflexivity.
Qed.

(** C4. Date normalization gives three empty strings for a value that
    is no date and year, month and day, all three non-empty, for a date
    that [strftime] prints; for a date outside the years of [datetime] it
    raises and nothing is built.  So what [_ymd] returns is whole or
    empty, never partial.  A [publication_date] element is in the journal
    issue (print, online) and in an article exactly when the triple is
    whole, that is when the value resolves, and then the element is
    whole: month, day and year between its two tags. *)
Theorem publication_date_all_or_nothing :
  (forall v,
     match to_datetime v with
     | None => _ymd v = Ok ("", "", "") /\ resolved v = false
     | Some dt =>
         if datetime_years dt
         then _ymd v = Ok (PyStr.of_nat (Z.to_nat (ts_year dt)),
                           zfill 2 (PyStr.of_nat (ts_month dt)),
                           zfill 2 (PyStr.of_nat (ts_day dt)))
              /\ truthy (PyStr.of_nat (Z.to_nat (ts_year dt))) = true
              /\ truthy (zfill 2 (PyStr.of_nat (ts_month dt))) = true
              /\ truthy (zfill 2 (PyStr.of_nat (ts_day dt))) = true
              /\ resolved v = true
         else _ymd v = Raise NotImplementedError /\ resolved v = false
     end)
  /\ (forall journal print online,
        issue_section (journal_parts journal print online)
        = journal_issue_element journal print online
        /\ emits "    <publication_date media_type='print'>"
                 (issue_section (journal_parts journal print online))
           = whole print
        /\ emits "    <publication_date media_type='online'>"
                 (issue_section (journal_parts journal print online))
           = whole online
        /\ emits "    <publication_date"
                 (metadata_section (journal_parts journal print online))
           = false)
  /\ (forall journal,
        match journal_fragment journal with
        | Ok parts =>
            parts = journal_parts journal (ymd_of (get journal "Pub_Date_Print"))
                                  (ymd_of (get journal "Pub_Date_Online"))
            /\ emits "    <publication_date media_type='print'>" (issue_section parts)
               = resolved (get journal "Pub_Date_Print")
            /\ emits "    <publication_date media_type='online'>" (issue_section parts)
               = resolved (get journal "Pub_Date_Online")
        | Raise e =>
            e = NotImplementedError
            /\ formats (get journal "Pub_Date_Print")
               && formats (get journal "Pub_Date_Online") = false
        end)
  /\ (forall article title doi resource date,
        article_parts article title doi resource date
        = article_element article title doi resource date
        /\ List.filter (startswith "        <publication_date")
                       (article_parts article title doi resource date)
           = if whole date
             then ["        <publication_date media_type='online'>"] else [])
  /\ (forall article,
        match article_iteration article with
        | Ok block =>
            exists parts,
              block = join nl parts
              /\ List.filter (startswith "        <publication_date") parts
                 = if resolved (get article "publication_date")
                   then ["        <publication_date media_type='online'>"] else []
        | Raise e => stops article = Some e
        end).
Proof.
  split; [|split; [|split; [|split]]].
  - intros v. pose proof (resolved_in_years v) as R.
    pose proof (ymd_outcome v) as Y.
    destruct (to_datetime v) as [dt|]; [destruct (datetime_years dt)|]; auto.
    rewrite of_nat_truthy, !zfill_truthy. auto 10.
  - intros journal print online.
    rewrite issue_section_parts, metadata_section_parts.
    destruct (emits_issue journal print online) as (Hp & Ho & _).
    split; [reflexivity|]. split; [exact Hp|]. split; [exact Ho|].
    unfold journal_metadata_element, doi_data_element. cbv zeta.
    emits_eval. reflexivity.
  - intros journal. rewrite journal_fragment_formats.
    destruct (formats (get journal "Pub_Date_Print")) eqn:P;
      destruct (formats (get journal "Pub_Date_Online")) eqn:O; cbn [andb]; auto.
    rewrite <- journal_parts_elements. split; [reflexivity|].
    rewrite issue_section_parts.
    destruct (emits_issue journal (ymd_of (get journal "Pub_Date_Print"))
                (ymd_of (get journal "Pub_Date_Online"))) as (Hp & Ho & _).
    rewrite Hp, Ho.
    split; apply resolved_whole; now apply formats_ymd_of.
  - intros article title doi resource date. rewrite article_parts_element.
    split; [reflexivity | apply article_date_lines].
  - intros article. rewrite article_iteration_stops.
    destruct (stops article) as [e|] eqn:S; [reflexivity|].
    apply stops_none in S as [_ D].
    eexists. split; [reflexivity|]. rewrite article_date_lines.
    now rewrite (resolved_whole _ _ (formats_ymd_of _ D)).
Qed.

(** C5, as amended.  The batch identifier is the normalized journal DOI
    when that is non-empty and otherwise the text of the discovered
    journal file name before its first underscore; it is non-empty
    exactly when the DOI is non-empty or the file name does not begin
    with an underscore; and it is the identifier written in the head of
    the document. *)
Theorem batch_id_doi_or_filename folder w listing self0 self journal rest :
  __init__ folder w = Ok self0 ->
  dirs w !! folder = Some listing ->
  Forall (fun f => contains "/" f = false) listing ->
  read_excel_data self0 w = Ok self ->
  journal_data self = Some (journal :: rest) ->
  exists f,
    In f listing /\ endswith "_journal.xlsx" f = true
    /\ batch_id_of self journal
       = (if truthy (_safe (get journal "Journal_DOI"))
          then _safe (get journal "Journal_DOI") else split_head "_" f)
    /\ truthy (batch_id_of self journal)
       = truthy (_safe (get journal "Journal_DOI")) || negb (startswith "_" f)
    /\ exists tail,
         combine_xml self w
         = Ok (head_before_batch_id +:+ batch_id_of self journal
               +:+ "</doi_batch_id>" +:+ tail).
Proof.
  intros Hi Hd Hl Hr Hj.
  destruct (init_ok _ _ _ Hi) as (listing' & f & Hd' & Hin & He & _ & _ & Hb).
  rewrite Hd in Hd'. injection Hd' as <-.
  destruct (read_excel_data_ok _ _ _ Hr) as (_ & _ & _ & _ & _ & _ & Hb' & _).
  assert (Hf : contains "/" f = false).
  { rewrite List.Forall_forall in Hl. now apply Hl. }
  rewrite basename_join in Hb by exact Hf.
  assert (Hid : batch_id_of self journal
                = (if truthy (_safe (get journal "Journal_DOI"))
                   then _safe (get journal "Journal_DOI") else split_head "_" f)).
  { unfold batch_id_of, or_else. now rewrite Hb', Hb. }
  exists f. split; [exact Hin|]. split; [exact He|]. split; [exact Hid|]. split.
  - rewrite Hid. destruct (truthy (_safe (get journal "Journal_DOI"))) eqn:E.
    + now rewrite E.
    + rewrite split_head_truthy.
      now rewrite (endswith_truthy "_journal.xlsx" f eq_refl He).
  - unfold combine_xml. rewrite Hj. cbn [iloc0 bind]. cbv zeta.
    eexists. f_equal. unfold head_before_batch_id. cbn [join].
    rewrite !app_assoc_str. reflexivity.
Qed.

(** C6. Where the code departs from the claim.  With every resource URL
    valid, the loop builds one block per record, in the order of the
    records, and sets [article_xml] to the blocks joined by line feeds,
    only when every publication date is one that [_ymd] returns on.  A
    date that pandas reads outside the years 1 to 9999 makes [_ymd], and
    with it [create_article_xml], raise [NotImplementedError]: no block
    is built, although [_ymd] is documented to return strings. *)
Theorem valid_urls_blocks_unless_date_raises rows :
  Forall (fun r => lacks_resource r = false) rows ->
  article_loop rows []
  = (if forallb dated rows then Ok (map article_block rows)
     else Raise NotImplementedError)
  /\ (forall self, article_data self = Some rows ->
        create_article_xml self
        = if forallb dated rows
          then Ok (set_article_xml self (join nl (map article_block rows)))
          else Raise NotImplementedError)
  /\ length (map article_block rows) = length rows
  /\ (forall r, In r rows ->
        dated r = match to_datetime (get r "publication_date") with
                  | Some dt => datetime_years dt
                  | None => true
                  end
        /\ article_iteration r
           = (if dated r then Ok (article_block r) else Raise NotImplementedError)
        /\ article_block r
           = join nl (article_parts r (_safe (get r "title")) (_safe (get r "doi"))
                                    (_url_or_empty (get r "fulltext_url"))
                                    (ymd_of (get r "publication_date")))
        /\ List.filter (startswith "    <journal_article")
             (article_parts r (_safe (get r "title")) (_safe (get r "doi"))
                            (_url_or_empty (get r "fulltext_url"))
                            (ymd_of (get r "publication_date")))
           = [journal_article_open]).
Proof.
  intros H.
  assert (S : first_stop rows
              = if forallb dated rows then None else Some NotImplementedError).
  { induction H as [|r rows Hr _ IH]; cbn [first_stop forallb]; [reflexivity|].
    destruct (dated r) eqn:D; cbn [andb].
    - now rewrite (proj2 (stops_none r) (conj Hr D)).
    - now rewrite (stops_undated r Hr D). }
  split; [|split; [|split]].
  - rewrite article_loop_stops, S. destruct (forallb dated rows); reflexivity.
  - intros self Hs. rewrite (create_article_xml_stops self rows Hs), S.
    destruct (forallb dated rows); reflexivity.
  - apply length_map.
  - intros r Hin. rewrite List.Forall_forall in H. specialize (H r Hin).
    split; [apply formats_in_years|]. split.
    + rewrite article_iteration_stops. destruct (dated r) eqn:D.
      * now rewrite (proj2 (stops_none r) (conj H D)).
      * now rewrite (stops_undated r H D).
    + rewrite article_parts_element. split; [reflexivity | apply article_open_lines].
Qed.

(** C7. [_url_or_empty] returns the trimmed value when it begins with
    http://, https:// or ftp://, in that exact lower case, and the empty
    string otherwise; the journal and the issue hold a [resource] element
    exactly when their URL passes that test. *)
Theorem url_normalization :
  (forall v,
     _url_or_empty v
     = (let trimmed := _safe v in
        if startswith "http://" trimmed || startswith "https://" trimmed
           || startswith "ftp://" trimmed
        then trimmed else ""))
  /\ _url_or_empty (Text "HTTP://example.org/a") = ""
  /\ (forall journal print online,
        emits "        <resource>"
              (metadata_section (journal_parts journal print online))
        = has_url_scheme (_safe (get journal "Journal_URL"))
        /\ emits "        <resource>"
                 (issue_section (journal_parts journal print online))
           = has_url_scheme (_safe (get journal "Issue_URL"))).
Proof.
  split; [exact url_normalize|]. split; [reflexivity|].
  intros journal print online. rewrite metadata_section_parts, issue_section_parts.
  rewrite <- !url_truthy.
  destruct (emits_metadata journal) as (_ & _ & _ & _ & _ & _ & Hm).
  destruct (emits_issue journal print online) as (_ & _ & _ & Hs).
  split; assumption.
Qed.

(** C8. A string made of four digits, a hyphen, three digits and a
    digit or X is returned unchanged by [_fmt_issn], and normalizing the
    result of a normalization changes nothing. *)
Theorem fmt_issn_idempotent :
  (forall s, is_hyphenated_issn s = true -> _fmt_issn (Text s) = s)
  /\ (forall v, _fmt_issn (Text (_fmt_issn v)) = _fmt_issn v).
Proof. split; [exact fmt_issn_hyphenated | exact fmt_issn_idem]. Qed.

(** C9. The journal metadata always holds a [full_title] element, empty
    when the title is; [abbrev_title], the two [issn] elements and the
    [doi_data] block are there exactly when their normalized values are
    non-empty, [doi_data] asking for the DOI or the URL. *)
Theorem journal_metadata_emission journal print online :
  let md := metadata_section (journal_parts journal print online) in
  md = journal_metadata_element journal
  /\ nth_error md 1
     = Some ("    <full_title>" +:+ _safe (get journal "Journal Title") +:+ "</full_title>")
  /\ nth_error (metadata_section (journal_parts ∅ print online)) 1
     = Some "    <full_title></full_title>"
  /\ emits "    <abbrev_title>" md = truthy (_safe (get journal "Abbrev"))
  /\ emits "    <issn media_type='print'>" md
     = truthy (_fmt_issn (get journal "Print_ISSN"))
  /\ emits "    <issn media_type='electronic'>" md
     = truthy (_fmt_issn (get journal "Electronic_ISSN"))
  /\ emits "    <doi_data>" md
     = truthy (_safe (get journal "Journal_DOI"))
       || truthy (_url_or_empty (get journal "Journal_URL")).
Proof.
  cbv zeta. rewrite !metadata_section_parts.
  destruct (emits_metadata journal) as (_ & Ha & Hp & He & Hd & _).
  split; [reflexivity|]. split; [reflexivity|]. split; [reflexivity|]. auto.
Qed.

(** C10. A slot with a given name appends one [person_name] entry whose
    [given_name] is the first name, followed by a space and the middle
    name when there is one; [surname] and [affiliation] are in the entry
    exactly when they are non-empty, so an author without a surname
    still has an entry. *)
Theorem person_name_contents article parts first_written i :
  let a := slot article i in
  author_iteration article (parts, first_written) i
  = (if truthy (fname a)
     then (parts ++ person_name (if first_written then "additional" else "first") a,
           true)
     else (parts, first_written))
  /\ (forall s,
        nth_error (person_name s a) 1
        = Some ("                <given_name>"
                +:+ (if truthy (mname a) then fname a +:+ " " +:+ mname a else fname a)
                +:+ "</given_name>"))
  /\ (forall s, emits "                <surname>" (person_name s a) = truthy (lname a))
  /\ (forall s, emits "                <affiliation>" (person_name s a) = truthy (inst a))
  /\ (forall s, emits "            <person_name" (person_name s a) = true).
Proof.
  cbv zeta. split; [apply author_iteration_step|].
  split; [reflexivity|].
  repeat split; intros s; unfold person_name, person_name_open;
    emits_eval; try reflexivity;
    destruct (truthy _); reflexivity.
Qed.

End Claims.

(** * The claims on the sample batches *)

(** C5 as first stated does not hold: the constructor accepts a journal
    file named [_journal.xlsx]; its base identifier is empty, and with no
    journal DOI so is the batch identifier. *)
Lemma batch_id_can_be_empty :
  __init__ "../data" underscore_world = Ok underscore_self
  /\ read_excel_data underscore_self underscore_world = Ok underscore_loaded
  /\ journal_data underscore_loaded = Some [sample_journal]
  /\ _safe (get sample_journal "Journal_DOI") = ""
  /\ batch_id_of underscore_loaded sample_journal = ""
  /\ ~ (forall folder w listing self0 self journal rest,
          __init__ folder w = Ok self0 ->
          dirs w !! folder = Some listing ->
          Forall (fun f => contains "/" f = false) listing ->
          read_excel_data self0 w = Ok self ->
          journal_data self = Some (journal :: rest) ->
          batch_id_of self journal <> "").
Proof.
  repeat split; try (vm_compute; reflexivity).
  intros H.
  apply (H "../data" underscore_world ["_journal.xlsx"] underscore_self
           underscore_loaded sample_journal []).
  - vm_compute. reflexivity.
  - vm_compute. reflexivity.
  - apply List.Forall_cons; [vm_compute; reflexivity | apply List.Forall_nil].
  - vm_compute. reflexivity.
  - vm_compute. reflexivity.
  - vm_compute. reflexivity.
Qed.

Lemma missing_resource_aborts_batch_witness :
  sheets sample_world_no_url !! article_file (initialize_article_file sample_self)
  = Some [sample_article; sample_article_no_url]
  /\ lacks_resource sample_article_no_url = true
  /\ exists e,
       generate_xml (pd := iso_pandas) sample_self sample_world_no_url
       = (Raise e, sample_world_no_url).
Proof.
  split; [vm_compute; reflexivity|]. split; [vm_compute; reflexivity|].
  destruct (missing_resource_aborts_batch (pd := iso_pandas) sample_self
              sample_world_no_url [sample_article; sample_article_no_url])
    as (r & _ & _ & e & He & _).
  - vm_compute. reflexivity.
  - apply List.Exists_cons_tl, List.Exists_cons_hd. vm_compute. reflexivity.
  - exists e. exact He.
Defined.

Lemma author_sequence_marking_witness :
  fname (slot sample_article 1) = ""
  /\ truthy (fname (slot sample_article 2)) = true
  /\ List.filter (startswith "            <person_name")
       (article_parts sample_article "A1" "" "https://x.org/1" ("", "", ""))
     = [person_name_open "first"].
Proof.
  split; [vm_compute; reflexivity|]. split; [vm_compute; reflexivity|].
  pose proof (author_sequence_marking sample_article
                "A1" "" "https://x.org/1" ("", "", "")) as H.
  cbv zeta in H. destruct H as (_ & _ & _ & H).
  apply H; vm_compute; reflexivity.
Defined.

Lemma batch_id_doi_or_filename_witness :
  __init__ "../data" sample_world = Ok sample_self
  /\ read_excel_data sample_self sample_world = Ok sample_loaded
  /\ exists tail,
       combine_xml sample_loaded sample_world
       = Ok (head_before_batch_id +:+ batch_id_of sample_loaded sample_journal
             +:+ "</doi_batch_id>" +:+ tail).
Proof.
  split; [vm_compute; reflexivity|]. split; [vm_compute; reflexivity|].
  destruct (batch_id_doi_or_filename "../data" sample_world
              ["notes.txt"; "jx_journal.xlsx"] sample_self sample_loaded
              sample_journal [])
    as (f & _ & _ & _ & _ & tail & H).
  - vm_compute. reflexivity.
  - vm_compute. reflexivity.
  - repeat (apply List.Forall_cons; [vm_compute; reflexivity|]). apply List.Forall_nil.
  - vm_compute. reflexivity.
  - vm_compute. reflexivity.
  - exists tail. exact H.
Defined.

(** The failing input of C6: one record, its resource URL valid, its
    date in the year 0. *)
Lemma valid_urls_blocks_unless_date_raises_witness :
  lacks_resource sample_article_year_0 = false
  /\ dated (pd := iso_pandas) sample_article_year_0 = false
  /\ create_article_xml (pd := iso_pandas)
       (set_article_data sample_self (Some [sample_article_year_0]))
     = Raise NotImplementedError.
Proof.
  split; [vm_compute; reflexivity|]. split; [vm_compute; reflexivity|].
  destruct (valid_urls_blocks_unless_date_raises (pd := iso_pandas)
              [sample_article_year_0]) as (_ & H & _).
  - apply List.Forall_cons; [vm_compute; reflexivity | apply List.Forall_nil].
  - rewrite (H (set_article_data sample_self (Some [sample_article_year_0])) eq_refl).
    vm_compute. reflexivity.
Defined.

Lemma fmt_issn_idempotent_witness :
  is_hyphenated_issn "1234-567X" = true /\ _fmt_issn (Text "1234-567X") = "1234-567X".
Proof.
  split; [vm_compute; reflexivity|].
  apply (proj1 fmt_issn_idempotent). vm_compute. reflexivity.
Defined.

(** The round trip of the specification: the sample batch is written to
    [../output/jx.xml]. *)
Example sample_round_trip :
  fst (generate_xml (pd := iso_pandas) sample_self sample_world) = Ok tt
  /\ is_some (files (snd (generate_xml (pd := iso_pandas) sample_self sample_world))
              !! "../output/jx.xml") = true
  /\ In "    <full_title>Test J</full_title>"
        (journal_parts sample_journal ("", "", "") ("", "", ""))
  /\ In "    <issn media_type='print'>1234-5678</issn>"
        (journal_parts sample_journal ("", "", "") ("", "", "")).
Proof.
  repeat split; try (vm_compute; reflexivity).
  - vm_compute. right. left. reflexivity.
  - vm_compute. right. right. left. reflexivity.
Qed.


(** * Further properties of the helpers *)

Section Helpers.

Lemma rstrip_length s : String.length (rstrip s) <= String.length s.
Proof.
  induction s as [|c s IH]; cbn [rstrip String.length]; [lia|].
  destruct (rstrip s) as [|d r]; [destruct (isspace c)|]; cbn [String.length] in *; lia.
Qed.

Lemma rstrip_trailing_space s c :
  isspace c = true -> rstrip (s +:+ String c "") = rstrip s.
Proof.
  intros Hc. induction s as [|d s IH]; cbn [String.append rstrip].
  - now rewrite Hc.
  - now rewrite IH.
Qed.

Lemma length_app_str a b : String.length (a +:+ b) = String.length a + String.length b.
Proof. induction a as [|c a IH]; cbn [String.append String.length]; [reflexivity | lia]. Qed.

Lemma rstrip_fix_last s c : rstrip (s +:+ String c "") = s +:+ String c "" -> isspace c = false.
Proof.
  destruct (isspace c) eqn:Hc; [|reflexivity].
  rewrite rstrip_trailing_space by exact Hc. intros E.
  pose proof (rstrip_length s) as L. rewrite E, length_app_str in L.
  cbn [String.length] in L. lia.
Qed.

Lemma lstrip_blank s : lstrip s = "" <-> all isspace s = true.
Proof.
  induction s as [|c s IH]; cbn [lstrip all]; [tauto|].
  destruct (isspace c); cbn [andb]; [exact IH|]. split; discriminate.
Qed.

Lemma strip_blank s : strip s = "" <-> all isspace s = true.
Proof.
  rewrite <- lstrip_blank. unfold strip. split.
  - intros H. pose proof (lstrip_idem s) as I.
    destruct (lstrip s) as [|c t]; [reflexivity|].
    apply lstrip_fix_head in I. destruct (rstrip_head c t I) as [r Hr].
    rewrite Hr in H. discriminate H.
  - intros ->. reflexivity.
Qed.

(** X1. A normalized cell is trimmed: it neither begins nor ends with a
    white-space character, both strips leave it alone, and normalizing
    it again changes nothing. *)
Theorem safe_is_trimmed v :
  strip (_safe v) = _safe v
  /\ _safe (Text (_safe v)) = _safe v
  /\ (forall c s, _safe v = String c s -> isspace c = false)
  /\ (forall s c, _safe v = s +:+ String c "" -> isspace c = false).
Proof.
  split; [apply strip_fix; [apply safe_lstrip | apply safe_rstrip]|].
  split; [apply safe_safe|]. split.
  - intros c s E. pose proof (safe_lstrip v) as H. rewrite E in H.
    now apply lstrip_fix_head in H.
  - intros s c E. pose proof (safe_rstrip v) as H. rewrite E in H.
    now apply rstrip_fix_last in H.
Qed.

(** X2. A cell normalizes to the empty string exactly when it is missing
    or its text is made of white space only: a blank cell behaves as a
    missing one. *)
Theorem safe_blank_is_missing v :
  truthy (_safe v) =
  match v with
  | NA => false
  | _ => negb (all isspace (py_str v))
  end.
Proof.
  destruct v as [|s|z]; [reflexivity| |]; unfold _safe; cbn [isna];
    match goal with |- truthy (strip ?t) = _ =>
      destruct (all isspace t) eqn:E;
      [ apply strip_blank in E; now rewrite E
      | destruct (strip t) eqn:S; [apply strip_blank in S; congruence | reflexivity] ]
    end.
Qed.

(** X3. What [_fmt_issn] returns is empty or is accepted by the second
    pattern of the code itself, [\d{4}-\d{3}[\dX]]: nine characters, the
    fifth a hyphen, that carry, hyphens apart, the characters of the
    trimmed value.  On the text modelled here, code points below 256,
    [\d] is the digits 0 to 9. *)
Theorem fmt_issn_wellformed v :
  _fmt_issn v = ""
  \/ (fullmatch re_issn_hyph (_fmt_issn v) = true
      /\ is_hyphenated_issn (_fmt_issn v) = true
      /\ String.length (_fmt_issn v) = 9
      /\ replace "-" "" (_fmt_issn v) = replace "-" "" (_safe v)).
Proof.
  rewrite !fullmatch_issn_hyph.
  cut (_fmt_issn v = ""
       \/ (is_hyphenated_issn (_fmt_issn v) = true
           /\ String.length (_fmt_issn v) = 9
           /\ replace "-" "" (_fmt_issn v) = replace "-" "" (_safe v))).
  { intros [H | (H1 & H2 & H3)]; [now left | right; auto]. }
  rewrite fmt_issn_normalize. unfold normalizeISSN. cbv zeta.
  destruct (is_8_digits _) eqn:E8.
  - right. unfold is_8_digits in E8.
    destruct (replace "-" "" (_safe v)) as [|? s]; [discriminate|].
    do 8 (try destruct s as [|? s]);
      cbn [String.length Nat.eqb all andb] in E8; try discriminate E8.
    rewrite !andb_true_r in E8. split_andb.
    split; [|split].
    + unfold is_hyphenated_issn.
      cbn [String.length Nat.eqb slice_to slice_from all String.eqb andb String.append].
      repeat match goal with H : isdigit _ = _ |- _ => rewrite H end. reflexivity.
    + reflexivity.
    + cbn [slice_to slice_from String.append].
      repeat first [ rewrite replace_eq
                   | rewrite replace_ne by (now apply isdigit_not_hyphen) ].
      reflexivity.
  - destruct (is_hyphenated_issn (_safe v)) eqn:Eh; [right | now left].
    split; [exact Eh|]. split; [|reflexivity].
    unfold is_hyphenated_issn in Eh. split_andb.
    now apply Nat.eqb_eq.
Qed.

(** X4. [_url_or_empty] returns the empty string or the trimmed value,
    which then begins with one of the three schemes; applying it to its
    own result changes nothing. *)
Theorem url_or_empty_idempotent v :
  (_url_or_empty v = ""
   \/ (_url_or_empty v = _safe v /\ has_url_scheme (_url_or_empty v) = true))
  /\ _url_or_empty (Text (_url_or_empty v)) = _url_or_empty v.
Proof.
  rewrite !url_normalize. unfold normalizeURL. cbv zeta.
  destruct (has_url_scheme (_safe v)) eqn:E.
  - split; [right; auto|]. now rewrite safe_safe, E.
  - split; [now left | reflexivity].
Qed.

End Helpers.

(** * Further properties of discovery and loading *)

Section DiscoveryMore.

(** The loop of [find_journal_file] returns the first name with the
    suffix, and fails when there is none. *)
Lemma find_journal_in_spec folder listing :
  match find_journal_in folder listing with
  | Ok p =>
      exists before f after,
        listing = before ++ f :: after
        /\ forallb (fun x => negb (endswith "_journal.xlsx" x)) before = true
        /\ endswith "_journal.xlsx" f = true
        /\ p = os_path_join folder f
  | Raise e =>
      e = FileNotFoundError "No journal file found in the specified folder."
      /\ forallb (fun x => negb (endswith "_journal.xlsx" x)) listing = true
  end.
Proof.
  induction listing as [|x listing IH]; cbn [find_journal_in forallb].
  - auto.
  - destruct (endswith "_journal.xlsx" x) eqn:E; cbn [negb andb].
    + exists [], x, listing. auto.
    + destruct (find_journal_in folder listing) as [p|e].
      * destruct IH as (before & f & after & -> & Hb & Hf & ->).
        exists (x :: before), f, after. cbn [forallb app]. rewrite E, Hb. auto.
      * exact IH.
Qed.

Lemma find_journal_in_app folder before f after :
  forallb (fun x => negb (endswith "_journal.xlsx" x)) before = true ->
  endswith "_journal.xlsx" f = true ->
  find_journal_in folder (before ++ f :: after) = Ok (os_path_join folder f).
Proof.
  intros Hb Hf. induction before as [|x before IH]; cbn [app find_journal_in].
  - now rewrite Hf.
  - cbn [forallb] in Hb. apply andb_prop in Hb as [Hx Hb].
    apply negb_true_iff in Hx. rewrite Hx. now apply IH.
Qed.

(** X5. [find_journal_file] takes the first entry of the listing, in
    listing order, whose name ends in [_journal.xlsx], joined to the
    folder; it raises [FileNotFoundError] exactly when no entry has the
    suffix.  Entries after the first match are never looked at. *)
Theorem find_journal_first_match folder listing :
  match find_journal_in folder listing with
  | Ok p =>
      exists before f after,
        listing = before ++ f :: after
        /\ forallb (fun x => negb (endswith "_journal.xlsx" x)) before = true
        /\ endswith "_journal.xlsx" f = true
        /\ p = os_path_join folder f
        /\ forall after', find_journal_in folder (before ++ f :: after') = Ok p
  | Raise e =>
      e = FileNotFoundError "No journal file found in the specified folder."
      /\ forallb (fun x => negb (endswith "_journal.xlsx" x)) listing = true
  end.
Proof.
  pose proof (find_journal_in_spec folder listing) as H.
  destruct (find_journal_in folder listing) as [p|e]; [|exact H].
  destruct H as (before & f & after & -> & Hb & Hf & ->).
  exists before, f, after. repeat split; auto.
  intros after'. now apply find_journal_in_app.
Qed.

Lemma endswith_contains suf f c :
  endswith suf f = true -> contains c suf = true -> contains c f = true.
Proof.
  intros He Hc. induction f as [|d f IH]; cbn [endswith] in He.
  - rewrite orb_false_r in He. apply String.eqb_eq in He. now subst.
  - apply orb_prop in He as [He|He].
    + apply String.eqb_eq in He. now rewrite He.
    + cbn [contains]. rewrite (IH He). apply orb_true_r.
Qed.

Lemma split_head_no_sep c f : contains c (split_head c f) = false.
Proof.
  induction f as [|d f IH]; cbn [split_head contains]; [reflexivity|].
  destruct (Ascii.eqb d c) eqn:E; cbn [contains]; [reflexivity|]. now rewrite E, IH.
Qed.

Lemma split_head_contains c d f :
  contains d f = false -> contains d (split_head c f) = false.
Proof.
  induction f as [|e f IH]; cbn [split_head contains]; [reflexivity|].
  intros H. apply orb_false_elim in H as [He Hf].
  destruct (Ascii.eqb e c); cbn [contains]; [reflexivity|]. now rewrite He, IH.
Qed.

Lemma split_head_prefix c f :
  contains c f = true -> startswith (split_head c f +:+ String c "") f = true.
Proof.
  induction f as [|d f IH]; cbn [split_head contains]; [discriminate|].
  destruct (Ascii.eqb d c) eqn:E; cbn [orb].
  - intros _. cbn [String.append startswith]. apply Ascii.eqb_eq in E. subst.
    now rewrite Ascii.eqb_refl.
  - intros H. cbn [String.append startswith]. now rewrite Ascii.eqb_refl, IH.
Qed.

(** X6. For a discovered journal file (a name without slash that ends in
    [_journal.xlsx]) the base identifier does not depend on the folder:
    it is the text of the name before its first underscore, it holds
    neither an underscore nor a slash, and the name begins with it
    followed by an underscore. *)
Theorem base_filename_of_discovered self folder f :
  journal_file self = os_path_join folder f ->
  contains "/" f = false ->
  endswith "_journal.xlsx" f = true ->
  extract_base_filename self = split_head "_" f
  /\ contains "_" (extract_base_filename self) = false
  /\ contains "/" (extract_base_filename self) = false
  /\ startswith (extract_base_filename self +:+ "_") f = true.
Proof.
  intros Hj Hs He. unfold extract_base_filename. cbv zeta.
  rewrite Hj, basename_join by exact Hs.
  split; [reflexivity|]. split; [apply split_head_no_sep|].
  split; [now apply split_head_contains|].
  apply split_head_prefix. now apply (endswith_contains "_journal.xlsx").
Qed.

(** X7. The constructor succeeds exactly when the folder can be listed,
    holds a name with the suffix and the log can be set up; the object
    then carries the path of the first such name, the base identifier
    cut from it, the article path built from the two, and no data yet.
    Otherwise it raises what [os.listdir] raised, or the
    [FileNotFoundError] of the search, or what [setup_logging] raised. *)
Theorem init_result folder w :
  match __init__ folder w with
  | Ok self =>
      exists listing before f after,
        dirs w !! folder = Some listing
        /\ listing = before ++ f :: after
        /\ forallb (fun x => negb (endswith "_journal.xlsx" x)) before = true
        /\ endswith "_journal.xlsx" f = true
        /\ setup_logging_error (os w)
             (split_head "_" (os_path_basename (os_path_join folder f))) = None
        /\ self =
           {| folder_path := folder;
              journal_file := os_path_join folder f;
              article_file :=
                os_path_join folder
                  (split_head "_" (os_path_basename (os_path_join folder f))
                   +:+ "_articles.xlsx");
              journal_data := None; article_data := None;
              journal_xml := ""; article_xml := "";
              base_filename := split_head "_" (os_path_basename (os_path_join folder f)) |}
  | Raise e =>
      (dirs w !! folder = None /\ e = listdir_error (os w) folder)
      \/ (exists listing,
            dirs w !! folder = Some listing
            /\ forallb (fun x => negb (endswith "_journal.xlsx" x)) listing = true
            /\ e = FileNotFoundError "No journal file found in the specified folder.")
      \/ (exists listing before f after,
            dirs w !! folder = Some listing
            /\ listing = before ++ f :: after
            /\ forallb (fun x => negb (endswith "_journal.xlsx" x)) before = true
            /\ endswith "_journal.xlsx" f = true
            /\ setup_logging_error (os w)
                 (split_head "_" (os_path_basename (os_path_join folder f))) = Some e)
  end.
Proof.
  unfold __init__, find_journal_file, setup_logging. cbn [folder_path].
  destruct (dirs w !! folder) as [listing|] eqn:Ed; cbn [bind]; [|auto].
  pose proof (find_journal_in_spec folder listing) as H.
  destruct (find_journal_in folder listing) as [p|e]; cbn [bind].
  - destruct H as (before & f & after & -> & Hb & Hf & ->).
    unfold extract_base_filename. cbv zeta.
    cbn [journal_file set_journal_file base_filename set_base_filename].
    destruct (setup_logging_error (os w) _) as [e|] eqn:El; cbn [bind].
    + right. right. exists (before ++ f :: after), before, f, after. auto 10.
    + exists (before ++ f :: after), before, f, after. repeat split; auto.
  - destruct H as (-> & Hn). right. left. eauto.
Qed.

(** X8. [read_excel_data] looks for the journal sheet first and for the
    article sheet second; a missing sheet raises [FileNotFoundError]
    naming its path.  The article path is computed again from the folder
    and the base identifier, so the [article_file] the object held before
    has no influence. *)
Theorem read_excel_data_result self w :
  let article_path :=
    os_path_join (folder_path self) (base_filename self +:+ "_articles.xlsx") in
  match read_excel_data self w with
  | Ok self' =>
      exists jd ad,
        sheets w !! journal_file self = Some jd
        /\ sheets w !! article_path = Some ad
        /\ self' =
           {| folder_path := folder_path self; journal_file := journal_file self;
              article_file := article_path;
              journal_data := Some jd; article_data := Some ad;
              journal_xml := journal_xml self; article_xml := article_xml self;
              base_filename := base_filename self |}
  | Raise e =>
      (sheets w !! journal_file self = None
       /\ e = FileNotFoundError (journal_file self +:+ " not found."))
      \/ (is_some (sheets w !! journal_file self) = true
          /\ sheets w !! article_path = None
          /\ e = FileNotFoundError (article_path +:+ " not found."))
  end
  /\ forall other, read_excel_data (set_article_file self other) w = read_excel_data self w.
Proof.
  cbv zeta. split.
  - unfold read_excel_data.
    destruct (sheets w !! journal_file self) as [jd|] eqn:Ej; [|auto].
    cbn [initialize_article_file set_journal_data set_article_file article_file
           folder_path base_filename].
    destruct (sheets w !! os_path_join (folder_path self)
                             (base_filename self +:+ "_articles.xlsx"))
      as [ad|] eqn:Ea.
    + exists jd, ad. cbn. auto.
    + right. cbn. auto.
  - intros other. reflexivity.
Qed.

End DiscoveryMore.

Lemma base_filename_of_discovered_witness :
  extract_base_filename sample_self = split_head "_" "jx_journal.xlsx"
  /\ contains "_" (extract_base_filename sample_self) = false
  /\ contains "/" (extract_base_filename sample_self) = false
  /\ startswith (extract_base_filename sample_self +:+ "_") "jx_journal.xlsx" = true.
Proof.
  apply (base_filename_of_discovered sample_self "../data" "jx_journal.xlsx");
    vm_compute; reflexivity.
Defined.

(** * Further properties of the fragments *)

Section JournalMore.

Context {pd : Pandas}.

(** X9. [create_journal_xml] and [combine_xml] read the first row of the
    journal sheet and no other: when the two dates of that row print,
    the fragment is its metadata element followed by its issue element,
    and when one of them is outside the years [strftime] prints,
    [create_journal_xml] raises [NotImplementedError]; the envelope is
    the one of a sheet cut down to that row.  A sheet without rows raises
    [IndexError] in both, and an object whose sheets were never read
    raises [AttributeError]. *)
Theorem journal_first_row_only self :
  match journal_data self with
  | None =>
      create_journal_xml self = Raise AttributeError
      /\ forall w, combine_xml self w = Raise AttributeError
  | Some [] =>
      create_journal_xml self = Raise IndexError
      /\ forall w, combine_xml self w = Raise IndexError
  | Some (journal :: rest) =>
      create_journal_xml self
      = (if formats (get journal "Pub_Date_Print")
            && formats (get journal "Pub_Date_Online")
         then Ok (set_journal_xml self
                    (join nl (journal_metadata_element journal
                              ++ journal_issue_element journal
                                   (ymd_of (get journal "Pub_Date_Print"))
                                   (ymd_of (get journal "Pub_Date_Online")))))
         else Raise NotImplementedError)
      /\ forall w,
           is_ok (combine_xml self w) = true
           /\ combine_xml self w
              = combine_xml (set_journal_data self (Some [journal])) w
  end.
Proof.
  unfold create_journal_xml, combine_xml.
  destruct (journal_data self) as [[|journal rest]|] eqn:E; cbn [iloc0 bind].
  - auto.
  - rewrite journal_fragment_formats. split.
    + destruct (formats (get journal "Pub_Date_Print")
                && formats (get journal "Pub_Date_Online")); reflexivity.
    + intros w. cbn [journal_data set_journal_data iloc0 bind is_ok]. auto.
  - auto.
Qed.

(** X10. In the issue fragment [journal_volume], with its [volume]
    child, is there exactly when the volume is non-empty, [issue] when
    the issue number is, and [doi] when the issue DOI is; the fragment
    opens with [<journal_issue>] and its last line closes it. *)
Theorem journal_issue_emission journal print online :
  let js := issue_section (journal_parts journal print online) in
  emits "    <journal_volume>" js = truthy (_safe (get journal "Volume"))
  /\ emits "        <volume>" js = truthy (_safe (get journal "Volume"))
  /\ emits "    <issue>" js = truthy (_safe (get journal "Issue"))
  /\ emits "        <doi>" js = truthy (_safe (get journal "Issue_DOI"))
  /\ nth_error js 0 = Some "<journal_issue>"
  /\ List.last js "" = "</journal_issue>".
Proof.
  cbv zeta. rewrite issue_section_parts.
  unfold journal_issue_element, doi_data_element. cbv zeta.
  destruct print as [[y_p m_p] d_p], online as [[y_o m_o] d_o].
  repeat split.
  all: try (rewrite !app_assoc; apply last_last).
  all: emits_eval; try reflexivity.
  all: repeat match goal with
              | |- context [whole ?d] => destruct (whole d)
              | |- context [truthy ?x] => destruct (truthy x)
              end; reflexivity.
Qed.

End JournalMore.

Section ArticleMore.

Context {pd : Pandas}.

Ltac lines_eval :=
  repeat (progress
    (cbn [List.filter startswith andb orb app opt date_element];
     eqb_cases; cbn [andb orb])).

Ltac no_person_lines :=
  apply entries_no_lines; intros s a; unfold person_name, person_name_open;
  destruct (truthy (lname a)), (truthy (inst a)); lines_eval; reflexivity.

Ltac article_lines :=
  rewrite article_parts_element;
  unfold article_element, contributors, journal_article_open;
  rewrite !List.filter_app;
  match goal with
  | |- context [List.filter ?p (entries ?b ?l)] =>
      replace (List.filter p (entries b l)) with (@nil string)
        by (symmetry; no_person_lines)
  end;
  match goal with
  | date : (string * string * string)%type |- _ =>
      let y := fresh "y" in let m := fresh "m" in let d := fresh "d" in
      destruct date as [[y m] d]; cbn [date_element]; destruct (whole (y, m, d))
  end;
  destruct (truthy _); lines_eval; reflexivity.

(** X11. Every article block holds exactly one [title] line, carrying
    the title even when it is empty, exactly one [resource] line,
    carrying the resource, one [contributors] element even when no slot
    is filled, and one [doi_data] element; the [doi] line is there
    exactly when the DOI is non-empty. *)
Theorem article_mandatory_elements article title doi resource date :
  let parts := article_parts article title doi resource date in
  List.filter (startswith "            <title>") parts
  = [ "            <title>" +:+ title +:+ "</title>" ]
  /\ List.filter (startswith "            <resource>") parts
     = [ "            <resource>" +:+ resource +:+ "</resource>" ]
  /\ List.filter (startswith "            <doi>") parts
     = opt (truthy doi) [ "            <doi>" +:+ doi +:+ "</doi>" ]
  /\ List.filter (startswith "        <contributors>") parts = [ "        <contributors>" ]
  /\ List.filter (startswith "        </contributors>") parts
     = [ "        </contributors>" ]
  /\ List.filter (startswith "        <doi_data>") parts = [ "        <doi_data>" ].
Proof.
  cbv zeta. repeat split; article_lines.
Qed.

Lemma person_close_lines s a :
  List.filter (startswith "            </person_name>") (person_name s a)
  = [ "            </person_name>" ].
Proof.
  unfold person_name, person_name_open.
  destruct (truthy (lname a)), (truthy (inst a)); lines_eval; reflexivity.
Qed.

Lemma entries_close_lines first_written l :
  List.filter (startswith "            </person_name>") (entries first_written l)
  = repeat "            </person_name>" (length l).
Proof.
  rewrite (filter_entries _ (fun _ _ => [ "            </person_name>" ]))
    by apply person_close_lines.
  pose proof (marks_length first_written (length l)) as H.
  revert H. generalize (marks first_written (length l)). intros ms.
  revert ms. induction l as [|a l IH]; intros [|m ms] H; try discriminate H;
    [reflexivity|].
  cbn [combine flat_map app length repeat]. f_equal. apply IH. now injection H.
Qed.

Lemma named_slots_length article : length (named (slots article)) <= 5.
Proof.
  unfold named. etransitivity; [apply List.filter_length_le|].
  unfold slots. now rewrite length_map, length_seq.
Qed.

Lemma first_marks_once n :
  List.filter (String.eqb (person_name_open "first"))
              (map person_name_open (sequence_marks n))
  = if Nat.eqb n 0 then [] else [ person_name_open "first" ].
Proof.
  destruct n as [|k]; [reflexivity|].
  unfold sequence_marks. cbn [marks map List.filter Nat.eqb].
  rewrite String.eqb_refl. f_equal.
  induction k as [|k IH]; [reflexivity|].
  cbn [repeat map List.filter].
  replace (String.eqb (person_name_open "first") (person_name_open "additional"))
    with false by (vm_compute; reflexivity).
  exact IH.
Qed.

(** X12. An article block holds at most five [person_name] entries, as
    many as there are author slots with a given name; every entry that is
    opened is closed; and when there is an entry, exactly one is marked
    'first'. *)
Theorem author_entries_bounded article title doi resource date :
  let parts := article_parts article title doi resource date in
  let opened := List.filter (startswith "            <person_name") parts in
  length opened = length (named (slots article))
  /\ length opened <= 5
  /\ length (List.filter (startswith "            </person_name>") parts)
     = length opened
  /\ List.filter (String.eqb (person_name_open "first")) opened
     = if Nat.eqb (length opened) 0 then [] else [ person_name_open "first" ].
Proof.
  cbv zeta. rewrite article_parts_element, article_person_lines.
  assert (length (map person_name_open
                      (sequence_marks (length (named (slots article)))))
          = length (named (slots article))) as L
    by (rewrite length_map; apply marks_length).
  split; [exact L|]. split; [rewrite L; apply named_slots_length|].
  split; [rewrite L | rewrite first_marks_once, L; reflexivity].
  unfold article_element, contributors, journal_article_open.
  rewrite !List.filter_app, entries_close_lines.
  destruct date as [[y m] d]. cbn [date_element].
  destruct (whole (y, m, d)), (truthy doi); lines_eval;
    rewrite ?app_nil_r; apply repeat_length.
Qed.

End ArticleMore.

(** * Further properties of the driver *)

Section DriverMore.

Context {pd : Pandas}.

(** The three steps of [write_to_xml_file] on the output path. *)
Lemma write_to_xml_file_cases self doc filename w :
  write_to_xml_file self doc filename w
  = match makedirs_error (os w) (os_path_dirname filename) with
    | Some e => (Raise e, w)
    | None =>
        match open_error (os w) filename with
        | Some e => (Raise e, w)
        | None =>
            match write_error (os w) filename doc with
            | Some (e, written) =>
                (Raise e, set_files w (<[filename := written]> (files w)))
            | None => (Ok tt, set_files w (<[filename := doc]> (files w)))
            end
        end
    end.
Proof. reflexivity. Qed.

(** The world after a run, case by case. *)
Lemma generate_xml_cases self w :
  generate_xml self w =
  match sheets w !! journal_file self with
  | None => (Raise (FileNotFoundError (journal_file self +:+ " not found.")), w)
  | Some jd =>
      match sheets w !! article_path self with
      | None => (Raise (FileNotFoundError (article_path self +:+ " not found.")), w)
      | Some ad =>
          match jd with
          | [] => (Raise IndexError, w)
          | journal :: _ =>
              if formats (get journal "Pub_Date_Print")
                 && formats (get journal "Pub_Date_Online")
              then
                match first_stop ad with
                | Some e => (Raise e, w)
                | None =>
                    let loaded :=
                      set_article_data
                        (set_article_file (set_journal_data self (Some jd))
                                          (article_path self))
                        (Some ad) in
                    let built :=
                      set_article_xml
                        (set_journal_xml loaded
                           (join nl
                              (journal_metadata_element journal
                               ++ journal_issue_element journal
                                    (ymd_of (get journal "Pub_Date_Print"))
                                    (ymd_of (get journal "Pub_Date_Online")))))
                        (join nl (map article_block ad)) in
                    match combine_xml built w with
                    | Ok doc => write_to_xml_file built doc (output_path self) w
                    | Raise e => (Raise e, w)
                    end
                end
              else (Raise NotImplementedError, w)
          end
      end
  end.
Proof.
  unfold generate_xml. rewrite assemble_cases.
  destruct (sheets w !! journal_file self) as [[|journal rest]|];
    destruct (sheets w !! article_path self) as [ad|]; try reflexivity.
  destruct (formats (get journal "Pub_Date_Print")
            && formats (get journal "Pub_Date_Online")); [|reflexivity].
  destruct (first_stop ad) as [e|]; [reflexivity|].
  cbv zeta. unfold combine_xml. cbn [journal_data set_article_xml set_journal_xml
    set_article_data set_article_file set_journal_data iloc0 bind].
  reflexivity.
Qed.

(** X13. The outcome of [generate_xml], case by case and in the order
    the code meets them: a missing journal sheet, a missing article
    sheet, a journal sheet without rows, a journal date that [strftime]
    cannot print, the first article that stops the loop (no usable
    resource URL, or a date that cannot be printed); each raises its
    error and leaves the world as it was.  Otherwise the document that
    [combine_xml] builds from the first journal row and one block per
    article goes to [write_to_xml_file] under [../output/<base>.xml]:
    a refused [makedirs] or [open] raises and stores nothing, a refused
    [write] raises and leaves what had reached the file, and else the
    document is stored. *)
Theorem generate_xml_outcome self w :
  match sheets w !! journal_file self, sheets w !! article_path self with
  | None, _ =>
      generate_xml self w
      = (Raise (FileNotFoundError (journal_file self +:+ " not found.")), w)
  | Some _, None =>
      generate_xml self w
      = (Raise (FileNotFoundError (article_path self +:+ " not found.")), w)
  | Some [], Some _ => generate_xml self w = (Raise IndexError, w)
  | Some (journal :: rest), Some ad =>
      if formats (get journal "Pub_Date_Print")
         && formats (get journal "Pub_Date_Online")
      then
        match first_stop ad with
        | Some e => generate_xml self w = (Raise e, w)
        | None =>
            let loaded :=
              set_article_data
                (set_article_file (set_journal_data self (Some (journal :: rest)))
                                  (article_path self))
                (Some ad) in
            let built :=
              set_article_xml
                (set_journal_xml loaded
                   (join nl (journal_metadata_element journal
                             ++ journal_issue_element journal
                                  (ymd_of (get journal "Pub_Date_Print"))
                                  (ymd_of (get journal "Pub_Date_Online")))))
                (join nl (map article_block ad)) in
            exists doc,
              combine_xml built w = Ok doc
              /\ generate_xml self w
                 = match makedirs_error (os w) (os_path_dirname (output_path self)) with
                   | Some e => (Raise e, w)
                   | None =>
                       match open_error (os w) (output_path self) with
                       | Some e => (Raise e, w)
                       | None =>
                           match write_error (os w) (output_path self) doc with
                           | Some (e, written) =>
                               (Raise e,
                                set_files w (<[output_path self := written]> (files w)))
                           | None =>
                               (Ok tt,
                                set_files w (<[output_path self := doc]> (files w)))
                           end
                       end
                   end
        end
      else generate_xml self w = (Raise NotImplementedError, w)
  end.
Proof.
  rewrite generate_xml_cases.
  destruct (sheets w !! journal_file self) as [[|journal rest]|];
    destruct (sheets w !! article_path self) as [ad|]; try reflexivity.
  destruct (formats (get journal "Pub_Date_Print")
            && formats (get journal "Pub_Date_Online")); [|reflexivity].
  destruct (first_stop ad) as [e|]; [reflexivity|].
  cbv zeta. unfold combine_xml. cbn [journal_data set_article_xml set_journal_xml
    set_article_data set_article_file set_journal_data iloc0 bind].
  eexists. split; [reflexivity|]. apply write_to_xml_file_cases.
Qed.

(** X14. [generate_xml] stores a document only when everything before
    the write has succeeded.  It returns normally only when both sheets
    exist, the journal sheet has a row whose two dates print, every
    article has a usable resource URL and a date that prints, and none of
    [makedirs], [open] and [write] is refused; the document is then under
    [../output/<base>.xml].  When it raises, the texts written are as
    they were, unless it was the [write] itself that was refused, which
    leaves under that path what had reached the file. *)
Theorem generate_xml_stores_only_on_success self w :
  match fst (generate_xml self w) with
  | Ok _ =>
      exists journal rest ad doc,
        sheets w !! journal_file self = Some (journal :: rest)
        /\ sheets w !! article_path self = Some ad
        /\ formats (get journal "Pub_Date_Print") = true
        /\ formats (get journal "Pub_Date_Online") = true
        /\ Forall (fun r => lacks_resource r = false /\ dated r = true) ad
        /\ makedirs_error (os w) (os_path_dirname (output_path self)) = None
        /\ open_error (os w) (output_path self) = None
        /\ write_error (os w) (output_path self) doc = None
        /\ files (snd (generate_xml self w)) = <[output_path self := doc]> (files w)
  | Raise e =>
      files (snd (generate_xml self w)) = files w
      \/ exists doc written,
           write_error (os w) (output_path self) doc = Some (e, written)
           /\ files (snd (generate_xml self w))
              = <[output_path self := written]> (files w)
  end.
Proof.
  rewrite generate_xml_cases.
  destruct (sheets w !! journal_file self) as [[|journal rest]|];
    destruct (sheets w !! article_path self) as [ad|]; cbn [fst snd]; auto.
  destruct (formats (get journal "Pub_Date_Print")) eqn:P;
    destruct (formats (get journal "Pub_Date_Online")) eqn:O;
    cbn [andb fst snd]; auto.
  destruct (first_stop ad) as [e|] eqn:S; cbn [fst snd]; auto.
  apply first_stop_none in S.
  cbv zeta. unfold combine_xml. cbn [journal_data set_article_xml set_journal_xml
    set_article_data set_article_file set_journal_data iloc0 bind].
  rewrite write_to_xml_file_cases.
  destruct (makedirs_error (os w) _) as [e|] eqn:M; cbn [fst snd]; auto.
  destruct (open_error (os w) _) as [e|] eqn:Op; cbn [fst snd]; auto.
  destruct (write_error (os w) _ _) as [[e written]|] eqn:Wr; cbn [fst snd files set_files].
  - right. eauto.
  - exists journal, rest, ad. eexists. repeat split; eauto.
Qed.

Lemma author_iteration_agree r1 r2 st i :
  agree (author_columns i) r1 r2 ->
  author_iteration r1 st i = author_iteration r2 st i.
Proof.
  unfold agree, author_columns. cbn [map]. intros H.
  inversion H as [|? ? H1 H']; subst. inversion H' as [|? ? H2 H'']; subst.
  inversion H'' as [|? ? H3 H''']; subst. inversion H''' as [|? ? H4 _]; subst.
  unfold author_iteration. destruct st as [parts first_written].
  cbn [String.append]. now rewrite H1, H2, H3, H4.
Qed.

Lemma author_fold_agree r1 r2 indices st :
  agree (flat_map author_columns indices) r1 r2 ->
  fold_left (author_iteration r1) indices st
  = fold_left (author_iteration r2) indices st.
Proof.
  revert st. induction indices as [|i indices IH]; intros st H; [reflexivity|].
  cbn [flat_map] in H. apply List.Forall_app in H as [Hi H].
  cbn [fold_left]. rewrite (author_iteration_agree r1 r2 st i Hi). now apply IH.
Qed.

Lemma agree_app c1 c2 r1 r2 :
  agree (c1 ++ c2) r1 r2 -> agree c1 r1 r2 /\ agree c2 r1 r2.
Proof. apply List.Forall_app. Qed.

(** X15. The journal fragment depends on the row through the twelve
    journal columns alone: two rows that hold the same cells there give
    the same parts or the same error, whatever else they hold.  A column
    that is absent counts as an empty cell. *)
Theorem journal_reads_listed_columns r1 r2 :
  agree journal_columns r1 r2 -> journal_fragment r1 = journal_fragment r2.
Proof.
  unfold agree, journal_columns. intros H.
  repeat match type of H with
         | Forall _ (_ :: _) =>
             let E := fresh "E" in
             apply List.Forall_cons_iff in H as [E H]
         end.
  unfold journal_fragment, journal_parts.
  now rewrite E, E0, E1, E2, E3, E4, E5, E6, E7, E8, E9, E10.
Qed.

(** X16. One turn of the article loop depends on the record through the
    title, the DOI, the URL, the date and the four columns of each of the
    author slots 1 to 5 alone: two records that hold the same cells
    there give the same block or the same error.  Columns of a sixth
    author are never read. *)
Theorem article_reads_listed_columns r1 r2 :
  agree article_columns r1 r2 -> article_iteration r1 = article_iteration r2.
Proof.
  unfold article_columns. intros H.
  apply agree_app in H as [H0 H]. apply agree_app in H as [Ha Hd].
  unfold agree in H0, Hd.
  repeat match type of H0 with
         | Forall _ (_ :: _) =>
             let E := fresh "E" in
             apply List.Forall_cons_iff in H0 as [E H0]
         end.
  apply List.Forall_cons_iff in Hd as [Ed _].
  unfold article_iteration. rewrite E, E0, E1. cbv zeta.
  destruct (negb (truthy (_url_or_empty (get r2 "fulltext_url")))); [reflexivity|].
  rewrite Ed. destruct (_ymd (get r2 "publication_date")) as [date|e]; cbn [bind];
    [|reflexivity].
  f_equal. f_equal. rewrite !article_parts_element. unfold article_element.
  f_equal. f_equal.
  pose proof (author_loop_contributors r1 []) as C1.
  pose proof (author_loop_contributors r2 []) as C2.
  cbn [app] in C1, C2. rewrite <- C1, <- C2. unfold author_loop.
  now rewrite (author_fold_agree r1 r2 (seq 1 5)).
Qed.

End DriverMore.

(** * From the folder to the output file *)

Section EndToEnd.

Context {pd : Pandas}.

(** X17. Constructing the generator on a folder and running it: when
    the first name of the listing that ends in [_journal.xlsx] is [f], a
    plain file name, the log can be set up, the journal sheet under that
    name has a row whose two dates print, the sheet [<base>_articles.xlsx]
    of the same folder exists, [<base>] being the text of [f] before its
    first underscore, every article has a usable resource URL and a date
    that prints, and the operating system refuses none of [makedirs],
    [open] and [write], then the constructor succeeds and [generate_xml]
    stores one document under [../output/<base>.xml]. *)
Theorem run_names_output_after_journal_file
    folder w before f after journal rest ad :
  dirs w !! folder = Some (before ++ f :: after) ->
  forallb (fun x => negb (endswith "_journal.xlsx" x)) before = true ->
  endswith "_journal.xlsx" f = true ->
  contains "/" f = false ->
  setup_logging_error (os w) (split_head "_" f) = None ->
  sheets w !! os_path_join folder f = Some (journal :: rest) ->
  formats (get journal "Pub_Date_Print") = true ->
  formats (get journal "Pub_Date_Online") = true ->
  sheets w !! os_path_join folder (split_head "_" f +:+ "_articles.xlsx") = Some ad ->
  Forall (fun r => lacks_resource r = false /\ dated r = true) ad ->
  makedirs_error (os w)
    (os_path_dirname ("../output/" +:+ split_head "_" f +:+ ".xml")) = None ->
  open_error (os w) ("../output/" +:+ split_head "_" f +:+ ".xml") = None ->
  (forall doc,
     write_error (os w) ("../output/" +:+ split_head "_" f +:+ ".xml") doc = None) ->
  exists self doc,
    __init__ folder w = Ok self
    /\ generate_xml self w
       = (Ok tt,
          set_files w
            (<["../output/" +:+ split_head "_" f +:+ ".xml" := doc]> (files w)))
    /\ files (snd (generate_xml self w))
         !! ("../output/" +:+ split_head "_" f +:+ ".xml") = Some doc.
Proof.
  intros Hd Hb Hf Hs Hl Hj Pp Po Ha Hr Hm Ho Hw.
  unfold __init__, find_journal_file, setup_logging. cbn [folder_path]. rewrite Hd.
  rewrite (find_journal_in_app folder before f after Hb Hf). cbn [bind].
  unfold extract_base_filename. cbv zeta.
  cbn [journal_file set_journal_file base_filename set_base_filename].
  rewrite (basename_join folder f Hs), Hl. cbn [bind].
  eexists. eexists. split; [reflexivity|].
  rewrite generate_xml_cases. unfold article_path, output_path.
  cbn [initialize_article_file set_base_filename set_journal_file set_article_file
         journal_file folder_path base_filename].
  rewrite Hj, Ha, Pp, Po, (proj2 (first_stop_none ad) Hr). cbn [andb].
  cbv zeta. unfold combine_xml. cbn [journal_data set_article_xml set_journal_xml
    set_article_data set_article_file set_journal_data iloc0 bind].
  rewrite write_to_xml_file_cases, Hm, Ho, Hw.
  cbn [snd files set_files].
  split; [reflexivity|]. apply lookup_insert_eq.
Qed.

End EndToEnd.

(** * The further properties on the sample batches *)

Lemma safe_is_trimmed_witness :
  _safe (Text " ab ") = "ab" /\ isspace "a" = false /\ isspace "b" = false.
Proof.
  destruct (safe_is_trimmed (Text " ab ")) as (_ & _ & Hhead & Hlast).
  split; [vm_compute; reflexivity|]. split.
  - apply (Hhead "a"%char "b"). vm_compute. reflexivity.
  - apply (Hlast "a" "b"%char). vm_compute. reflexivity.
Defined.

Lemma journal_reads_listed_columns_witness :
  journal_fragment (pd := iso_pandas)
    (<["Abbrev" := NA]> (<["Notes" := Text "x"]> sample_journal))
  = journal_fragment (pd := iso_pandas) sample_journal.
Proof.
  apply journal_reads_listed_columns. unfold agree, journal_columns.
  repeat (apply List.Forall_cons; [vm_compute; reflexivity|]).
  apply List.Forall_nil.
Defined.

Lemma article_reads_listed_columns_witness :
  article_iteration (pd := iso_pandas) (<["author6_fname" := Text "Zed"]> sample_article)
  = article_iteration (pd := iso_pandas) sample_article.
Proof.
  apply article_reads_listed_columns. unfold agree.
  let l := eval vm_compute in article_columns in change article_columns with l.
  repeat (apply List.Forall_cons; [vm_compute; reflexivity|]).
  apply List.Forall_nil.
Defined.

Lemma run_names_output_after_journal_file_witness :
  exists self doc,
    __init__ "../data" sample_world = Ok self
    /\ generate_xml (pd := iso_pandas) self sample_world
       = (Ok tt,
          set_files sample_world
            (<["../output/" +:+ split_head "_" "jx_journal.xlsx" +:+ ".xml" := doc]>
               (files sample_world)))
    /\ files (snd (generate_xml (pd := iso_pandas) self sample_world))
         !! ("../output/" +:+ split_head "_" "jx_journal.xlsx" +:+ ".xml") = Some doc.
Proof.
  apply (run_names_output_after_journal_file (pd := iso_pandas)
           "../data" sample_world ["notes.txt"] "jx_journal.xlsx" []
           sample_journal [] [sample_article]).
  all: try (vm_compute; reflexivity).
  apply List.Forall_cons; [split; vm_compute; reflexivity | apply List.Forall_nil].
Defined.
